(** * dugong/t5.py: the T5 training script, embedded and verified

    The script is orchestration code: a dataset wrapper over three parallel
    arrays ([BatchEncodingDataset]), a [setup] routine that assembles the
    collaborators, and a training driver ([train_torch]) that runs a fixed
    number of epochs and prints a metrics table after each of them.

    The embedding is shallow.  Python objects that the script itself reads
    or writes live in an explicit object store; everything that belongs to
    the frameworks the script calls (tokenizer, model weights, trainer,
    file system) is an opaque state threaded through a record of
    collaborator operations, every one of which may raise.  What the
    script does that can be observed from outside (calls of
    collaborators with their outcome, progress updates, printing) is
    recorded in a trace, in the order in which it happens. *)

From Stdlib Require Import ZArith List Ascii String DecimalString Bool Lia.
Import ListNotations.

Set Implicit Arguments.

Local Open Scope string_scope.
Local Open Scope list_scope.

(** ** Exceptions and the state-and-exception monad *)

Inductive exn : Type :=
| IndexError (msg : string)
| AttributeError (msg : string)
| KeyError (msg : string)
| SystemError (msg : string)
| ExternalError (msg : string).

(** A computation over a state [S] that returns an [A] or raises.  The
    state reached when the exception was raised is kept: effects that
    happened before a failure stay visible. *)
Definition SE (S A : Type) : Type := S -> (exn + A) * S.

Definition ret {S A : Type} (a : A) : SE S A := fun s => (inr a, s).

Definition raise {S A : Type} (e : exn) : SE S A := fun s => (inl e, s).

Definition bind {S A B : Type} (m : SE S A) (k : A -> SE S B) : SE S B :=
  fun s =>
    match m s with
    | (inl e, s') => (inl e, s')
    | (inr a, s') => k a s'
    end.

Definition lift_result {S A : Type} (r : exn + A) : SE S A := fun s => (r, s).

Declare Scope se_scope.
Delimit Scope se_scope with se.

Notation "x <- m ;; k" := (bind m (fun x => k))
  (at level 100, m at next level, right associativity) : se_scope.
Notation "' pat <- m ;; k" := (bind m (fun pat => k))
  (at level 100, pat pattern, m at next level, right associativity) : se_scope.
Notation "m ;;; k" := (bind m (fun _ => k))
  (at level 100, right associativity) : se_scope.

Local Open Scope se_scope.

(** [for x in xs: body x] *)
Fixpoint for_each {S A : Type} (xs : list A) (body : A -> SE S unit) : SE S unit :=
  match xs with
  | [] => ret tt
  | x :: rest => body x ;;; for_each rest body
  end.

(** ** Python built-ins used by the script *)

(** [range(n)]: the integers [0, 1, ..., n-1]; empty when [n <= 0]. *)
Definition range (n : Z) : list Z := map Z.of_nat (seq 0 (Z.to_nat n)).

(** [l[idx]] on a Python list: a negative index counts from the end, and
    an index outside [-len, len) raises [IndexError].  This is the
    behaviour for an index that fits a machine word
    ([-2^63 <= idx < 2^63]); for an index beyond that the interpreter
    raises [IndexError] with another message, which is not modelled. *)
Definition list_getitem {A : Type} (l : list A) (idx : Z) : exn + A :=
  let n := Z.of_nat (List.length l) in
  let i := if (idx <? 0)%Z then (idx + n)%Z else idx in
  if ((0 <=? i) && (i <? n))%Z
  then match nth_error l (Z.to_nat i) with
       | Some a => inr a
       | None => inl (IndexError "list index out of range")
       end
  else inl (IndexError "list index out of range").

(** [len(l)] *)
Definition len {A : Type} (l : list A) : Z := Z.of_nat (List.length l).

(** A Python [dict] with string keys: its items in insertion order, with
    no key occurring twice. *)
Fixpoint keys_unique {V : Type} (kvs : list (string * V)) : bool :=
  match kvs with
  | [] => true
  | (k, _) :: rest =>
      negb (existsb (String.eqb k) (map fst rest)) && keys_unique rest
  end.

Record dict (V : Type) : Type := Dict {
  items : list (string * V);
  items_unique : keys_unique items = true
}.

(** ** Tensors *)

(** [torch.tensor(data)] on a list of integers: a fresh tensor holding a
    copy of the data. *)
Record Tensor : Type := { tensor_data : list Z }.

Definition torch_tensor (data : list Z) : Tensor := {| tensor_data := data |}.

(** ** The object store *)

(** Modelled from the spec: the batch-encoded collection that the
    preprocessing module (dugong/preprocess.py, not part of this file)
    hands over; the spec describes it as three parallel arrays of input
    ids, attention masks and labels, each entry an integer array. *)
Record BatchEncoding : Type := {
  input_ids : list (list Z);
  attention_mask : list (list Z);
  labels : list (list Z)
}.

Record enc_ref : Type := EncRef { enc_addr : nat }.
Record ds_ref : Type := DsRef { ds_addr : nat }.

(** The attributes of a [BatchEncodingDataset] instance: [encodings] is
    unset until [__init__] has run. *)
Record instance : Type := Instance { attr_encodings : option enc_ref }.

Record Heap : Type := mkHeap {
  encoding_objs : list BatchEncoding;
  instances : list instance
}.

Definition empty_heap : Heap := mkHeap [] [].

Fixpoint update_nth {A : Type} (n : nat) (x : A) (l : list A) : list A :=
  match l, n with
  | [], _ => []
  | _ :: rest, O => x :: rest
  | y :: rest, S n' => y :: update_nth n' x rest
  end.

Definition encoding_at (h : Heap) (e : enc_ref) : option BatchEncoding :=
  nth_error (encoding_objs h) (enc_addr e).

Definition instance_at (h : Heap) (r : ds_ref) : option instance :=
  nth_error (instances h) (ds_addr r).

(** Allocation of an encoding collection produced by a collaborator. *)
Definition alloc_encoding (enc : BatchEncoding) : SE Heap enc_ref :=
  fun h =>
    (inr (EncRef (List.length (encoding_objs h))),
     mkHeap (encoding_objs h ++ [enc]) (instances h)).

(** [object.__new__]: a fresh instance with no attribute set. *)
Definition new_instance : SE Heap ds_ref :=
  fun h =>
    (inr (DsRef (List.length (instances h))),
     mkHeap (encoding_objs h) (instances h ++ [Instance None])).

(** [self.encodings = e] *)
Definition setattr_encodings (self : ds_ref) (e : enc_ref) : SE Heap unit :=
  fun h =>
    match instance_at h self with
    | Some _ =>
        (inr tt,
         mkHeap (encoding_objs h)
                (update_nth (ds_addr self) (Instance (Some e)) (instances h)))
    | None => (inl (SystemError "dangling reference"), h)
    end.

(** [self.encodings] *)
Definition getattr_encodings (self : ds_ref) : SE Heap enc_ref :=
  fun h =>
    match instance_at h self with
    | Some (Instance (Some e)) => (inr e, h)
    | Some (Instance None) =>
        (inl (AttributeError
                "'BatchEncodingDataset' object has no attribute 'encodings'"), h)
    | None => (inl (SystemError "dangling reference"), h)
    end.

(** [e.input_ids], [e.attention_mask], [e.labels] *)
Definition getattr_array (field : BatchEncoding -> list (list Z)) (e : enc_ref)
  : SE Heap (list (list Z)) :=
  fun h =>
    match encoding_at h e with
    | Some enc => (inr (field enc), h)
    | None => (inl (SystemError "dangling reference"), h)
    end.

(** ** class BatchEncodingDataset (t5.py, lines 45-60) *)

Module BatchEncodingDataset.

(** [def __init__(self, encodings): self.encodings = encodings] *)
Definition __init__ (self : ds_ref) (encodings : enc_ref) : SE Heap unit :=
  setattr_encodings self encodings.

(** The class call [BatchEncodingDataset(encodings)]. *)
Definition new (encodings : enc_ref) : SE Heap ds_ref :=
  self <- new_instance ;;
  __init__ self encodings ;;;
  ret self.

(** [self.encodings.<field>[idx]] wrapped in [torch.tensor]. *)
Definition tensor_at (field : BatchEncoding -> list (list Z))
           (self : ds_ref) (idx : Z) : SE Heap Tensor :=
  e <- getattr_encodings self ;;
  arr <- getattr_array field e ;;
  x <- lift_result (list_getitem arr idx) ;;
  ret (torch_tensor x).

Definition __getitem__ (self : ds_ref) (idx : Z) : SE Heap (dict Tensor) :=
  input_ids <- tensor_at input_ids self idx ;;
  attention_mask <- tensor_at attention_mask self idx ;;
  labels <- tensor_at labels self idx ;;
  ret (Dict [("input_ids", input_ids);
             ("attention_mask", attention_mask);
             ("labels", labels)] eq_refl).

Definition __len__ (self : ds_ref) : SE Heap Z :=
  e <- getattr_encodings self ;;
  arr <- getattr_array input_ids e ;;
  ret (len arr).

End BatchEncodingDataset.

(** ** Paths *)

(** [pathlib.Path(text)] *)
Record Path : Type := { path_text : string }.

(** The components of a path: the pieces between slashes, empty pieces
    and single dots dropped, as [pathlib] normalises them. *)
Fixpoint split_slash (s : string) (cur : string) : list string :=
  match s with
  | EmptyString => [cur]
  | String c rest =>
      if Ascii.eqb c "/"%char
      then cur :: split_slash rest ""
      else split_slash rest (cur ++ String c "")
  end.

Definition parts (p : Path) : list string :=
  filter (fun c => negb (String.eqb c "" || String.eqb c "."))
         (split_slash (path_text p) "").

(** [Path.name]: the final component, empty for a path without one. *)
Definition path_name (p : Path) : string := last (parts p) "".

(** ** Handles of the collaborators' objects

    The objects below belong to the frameworks; the script only passes
    them around.  Each is a reference, and its content is part of the
    opaque framework state. *)

Record Metric : Type := MetricRef { metric_id : nat }.
Record Preprocessor : Type := PreprocessorRef { preprocessor_id : nat }.
Record T5Tokenizer : Type := TokenizerRef { tokenizer_id : nat }.
Record Evaluate : Type := EvaluateRef { evaluate_id : nat }.
Record DataCollatorForSeq2Seq : Type := CollatorRef { collator_id : nat }.
Record T5ForConditionalGeneration : Type := ModelRef { model_id : nat }.
Record Seq2SeqTrainer : Type := TrainerRef { trainer_id : nat }.

(** A floating-point literal, kept as written. *)
Record float_literal : Type := Float { literal : string }.

(** The keyword arguments of [Seq2SeqTrainingArguments(...)]. *)
Record Seq2SeqTrainingArguments : Type := {
  output_dir : string;
  evaluation_strategy : string;
  learning_rate : float_literal;
  per_device_train_batch_size : Z;
  per_device_eval_batch_size : Z;
  weight_decay : float_literal;
  save_total_limit : Z;
  num_train_epochs : Z;
  predict_with_generate : bool;
  fp16 : bool
}.

(** The keyword arguments of [DataCollatorForSeq2Seq(...)]; [dc_model]
    receives the checkpoint string, as the script passes it. *)
Record collator_kwargs : Type := {
  dc_tokenizer : T5Tokenizer;
  dc_model : string;
  dc_padding : bool;
  dc_label_pad_token_id : option Z
}.

(** The keyword arguments of [Seq2SeqTrainer(...)]; [tr_compute_metrics]
    is the evaluator captured by
    [lambda eval_preds: evaluate.compute_metrics(eval_preds)]. *)
Record trainer_kwargs : Type := {
  tr_model : T5ForConditionalGeneration;
  tr_args : Seq2SeqTrainingArguments;
  tr_train_dataset : ds_ref;
  tr_eval_dataset : ds_ref;
  tr_tokenizer : T5Tokenizer;
  tr_data_collator : DataCollatorForSeq2Seq;
  tr_compute_metrics : Evaluate
}.

(** ** Terminal output (rich) *)

Record Column : Type := { header : string; justify : string }.

Record Table : Type := {
  title : string;
  show_header : bool;
  header_style : string;
  columns : list Column;
  rows : list (list string)
}.

Definition Table_new (title : string) (show_header : bool) (header_style : string)
  : Table :=
  {| title := title; show_header := show_header; header_style := header_style;
     columns := []; rows := [] |}.

Definition add_column (t : Table) (header justify : string) : Table :=
  {| title := title t; show_header := show_header t;
     header_style := header_style t;
     columns := columns t ++ [{| header := header; justify := justify |}];
     rows := rows t |}.

Definition add_row (t : Table) (cells : list string) : Table :=
  {| title := title t; show_header := show_header t;
     header_style := header_style t;
     columns := columns t;
     rows := rows t ++ [cells] |}.

Record Panel : Type := {
  panel_body : Table;
  panel_title : string;
  expand : bool
}.

Inductive renderable : Type :=
| RText (markup : string)
| RPanel (p : Panel).

(** One task of a [rich.progress.Progress] display. *)
Record Task : Type := {
  description : string;
  total : Z;
  completed : Z
}.

(** ** The trace of observable actions *)

Inductive call : Type :=
| CallFilterWarnings (action : string)
| CallSetVerbosityError
| CallEvaluateLoad (name : string)
| CallPreprocessor (model : string) (size : option string)
                   (source_lang target_lang : string)
| CallPreprocess (p : Preprocessor) (train_path test_path : Path)
| CallGetTokenizer (p : Preprocessor)
| CallGetCheckpoint (p : Preprocessor)
| CallEvaluate (tokenizer : T5Tokenizer) (metric : Metric)
| CallPadTokenId (tokenizer : T5Tokenizer)
| CallDataCollator (kwargs : collator_kwargs)
| CallFromPretrained (checkpoint : string)
| CallTrainer (kwargs : trainer_kwargs)
| CallTrain (trainer : Seq2SeqTrainer)
| CallTrainerEvaluate (trainer : Seq2SeqTrainer).

(** A collaborator call is recorded with its outcome: [None] when it
    returned, [Some e] when it raised [e]. *)
Inductive event : Type :=
| EvCall (c : call) (raised : option exn)
| EvProgressStart
| EvProgressStop
| EvAddTask (description : string) (total : Z)
| EvAdvance (task : nat) (advance : Z)
| EvPrint (text : string)
| EvConsolePrint (r : renderable).

(** ** The collaborators and the world the script runs in *)

Section Script.

(** [X] is the state of everything outside the script (file system, model
    hub, weights, trainer internals); [V] is the type of a metric value. *)
Variables X V : Type.

(** The operations the script calls on its collaborators.  [Preprocessor]
    and [Evaluate] are modules of this repository that are not part of
    this file; the others belong to the frameworks.  Each operation reads
    and updates the framework state and may raise. *)
Record Collaborators : Type := {
  evaluate_load : string -> SE X Metric;
  Preprocessor_init : string -> option string -> string -> string -> SE X Preprocessor;
  preprocess : Preprocessor -> Path -> Path -> SE X (BatchEncoding * BatchEncoding);
  get_tokenizer : Preprocessor -> SE X T5Tokenizer;
  get_checkpoint : Preprocessor -> SE X string;
  Evaluate_init : T5Tokenizer -> Metric -> SE X Evaluate;
  pad_token_id : T5Tokenizer -> SE X (option Z);
  DataCollatorForSeq2Seq_init : collator_kwargs -> SE X DataCollatorForSeq2Seq;
  from_pretrained : string -> SE X T5ForConditionalGeneration;
  Seq2SeqTrainer_init : trainer_kwargs -> SE X Seq2SeqTrainer;
  trainer_train : Seq2SeqTrainer -> SE X unit;
  trainer_evaluate : Seq2SeqTrainer -> SE X (dict V);
  str : V -> string
}.

Record World : Type := mkWorld {
  heap : Heap;
  ext : X;
  tasks : list Task;
  trace : list event
}.

Definition log (ev : event) (w : World) : World :=
  mkWorld (heap w) (ext w) (tasks w) (trace w ++ [ev]).

Definition raised_of {A : Type} (r : exn + A) : option exn :=
  match r with
  | inl e => Some e
  | inr _ => None
  end.

(** A call of a collaborator: it runs on the framework state and is
    recorded in the trace together with its outcome. *)
Definition invoke {A : Type} (c : call) (op : SE X A) : SE World A :=
  fun w =>
    let (r, x') := op (ext w) in
    (r, mkWorld (heap w) x' (tasks w) (trace w ++ [EvCall c (raised_of r)])).

(** An operation on the script's own objects. *)
Definition on_heap {A : Type} (op : SE Heap A) : SE World A :=
  fun w =>
    let (r, h') := op (heap w) in
    (r, mkWorld h' (ext w) (tasks w) (trace w)).

(** [print(text)] *)
Definition print (text : string) : SE World unit :=
  fun w => (inr tt, log (EvPrint text) w).

(** [console.print(r)] *)
Definition console_print (r : renderable) : SE World unit :=
  fun w => (inr tt, log (EvConsolePrint r) w).

(** [progress.add_task(description, total=total)]: the new task's id. *)
Definition add_task (description : string) (total : Z) : SE World nat :=
  fun w =>
    (inr (List.length (tasks w)),
     mkWorld (heap w) (ext w)
             (tasks w ++ [{| description := description; total := total;
                             completed := 0 |}])
             (trace w ++ [EvAddTask description total])).

(** [progress.update(task, advance=advance)] *)
Definition progress_update (task : nat) (advance : Z) : SE World unit :=
  fun w =>
    match nth_error (tasks w) task with
    | Some t =>
        (inr tt,
         mkWorld (heap w) (ext w)
                 (update_nth task
                    {| description := description t; total := total t;
                       completed := (completed t + advance)%Z |}
                    (tasks w))
                 (trace w ++ [EvAdvance task advance]))
    | None => (inl (KeyError "task"), w)
    end.

(** [with Progress() as progress: body]: a fresh display without tasks is
    started, and it is stopped when the block is left, also by an
    exception. *)
Definition with_Progress {A : Type} (body : SE World A) : SE World A :=
  fun w =>
    let w1 := mkWorld (heap w) (ext w) [] (trace w ++ [EvProgressStart]) in
    let (r, w2) := body w1 in
    (r, log EvProgressStop w2).

Variable C : Collaborators.

(** ** setup (t5.py, lines 63-105) *)

Definition SetupResult : Type :=
  ds_ref * ds_ref * T5Tokenizer * string * Evaluate
  * DataCollatorForSeq2Seq * T5ForConditionalGeneration.

Definition setup (METRIC : Metric) (train_path test_path : Path)
           (source_lang target_lang : string) (size : option string)
  : SE World SetupResult :=
  preprocessor <- invoke (CallPreprocessor "t5" size source_lang target_lang)
                    (Preprocessor_init C "t5" size source_lang target_lang) ;;
  ' (train_encodings, test_encodings) <-
      invoke (CallPreprocess preprocessor train_path test_path)
        (preprocess C preprocessor train_path test_path) ;;
  train_dataset <- on_heap (alloc_encoding train_encodings) ;;
  test_dataset <- on_heap (alloc_encoding test_encodings) ;;
  tokenizer <- invoke (CallGetTokenizer preprocessor)
                 (get_tokenizer C preprocessor) ;;
  checkpoint <- invoke (CallGetCheckpoint preprocessor)
                  (get_checkpoint C preprocessor) ;;
  evaluate <- invoke (CallEvaluate tokenizer METRIC)
                (Evaluate_init C tokenizer METRIC) ;;
  label_pad_token_id <- invoke (CallPadTokenId tokenizer)
                          (pad_token_id C tokenizer) ;;
  let kwargs := {| dc_tokenizer := tokenizer;
                   dc_model := checkpoint;
                   dc_padding := true;
                   dc_label_pad_token_id := label_pad_token_id |} in
  data_collator <- invoke (CallDataCollator kwargs)
                     (DataCollatorForSeq2Seq_init C kwargs) ;;
  model <- invoke (CallFromPretrained checkpoint)
             (from_pretrained C checkpoint) ;;
  train_dataset <- on_heap (BatchEncodingDataset.new train_dataset) ;;
  test_dataset <- on_heap (BatchEncodingDataset.new test_dataset) ;;
  ret (train_dataset, test_dataset, tokenizer, checkpoint, evaluate,
       data_collator, model).

(** The return annotation of [setup] (lines 69-77) and the classes of the
    values a tuple carries, position by position. *)
Inductive py_class : Type :=
| ClsDataset
| ClsT5Tokenizer
| ClsEvaluate
| ClsStr
| ClsDataCollatorForSeq2Seq
| ClsT5ForConditionalGeneration.

Definition setup_annotation : list py_class :=
  [ClsDataset; ClsDataset; ClsT5Tokenizer; ClsEvaluate; ClsStr;
   ClsDataCollatorForSeq2Seq; ClsT5ForConditionalGeneration].

Inductive value : Type :=
| VDataset (d : ds_ref)
| VTokenizer (t : T5Tokenizer)
| VStr (s : string)
| VEvaluate (e : Evaluate)
| VCollator (c : DataCollatorForSeq2Seq)
| VModel (m : T5ForConditionalGeneration).

Definition class_of (v : value) : py_class :=
  match v with
  | VDataset _ => ClsDataset
  | VTokenizer _ => ClsT5Tokenizer
  | VStr _ => ClsStr
  | VEvaluate _ => ClsEvaluate
  | VCollator _ => ClsDataCollatorForSeq2Seq
  | VModel _ => ClsT5ForConditionalGeneration
  end.

(** The components of the returned tuple, in order. *)
Definition components (r : SetupResult) : list value :=
  let '(train_dataset, test_dataset, tokenizer, checkpoint, evaluate,
        data_collator, model) := r in
  [VDataset train_dataset; VDataset test_dataset; VTokenizer tokenizer;
   VStr checkpoint; VEvaluate evaluate; VCollator data_collator; VModel model].

(** ** train_torch (t5.py, lines 108-175) *)

(** The hyperparameters of lines 126-137; the constructor is taken to
    keep the keyword arguments it is given. *)
Definition training_args : Seq2SeqTrainingArguments :=
  {| output_dir := "dugong/models/";
     evaluation_strategy := "epoch";
     learning_rate := Float "2e-5";
     per_device_train_batch_size := 4;
     per_device_eval_batch_size := 4;
     weight_decay := Float "0.01";
     save_total_limit := 3;
     num_train_epochs := 2;
     predict_with_generate := true;
     fp16 := false |}.

Definition newline : string := String (ascii_of_nat 10) "".

(** Lines 161-168: the table of one epoch's metrics. *)
Definition metrics_table_of (metrics : dict V) : Table :=
  let metrics_table := Table_new "Metrics" true "bold magenta" in
  let metrics_table := add_column metrics_table "Metric" "center" in
  let metrics_table := add_column metrics_table "Value" "center" in
  fold_left
    (fun t '(metric_name, metric_value) =>
       add_row t [metric_name; str C metric_value])
    (items metrics) metrics_table.

(** The row that line 168 adds for one metric. *)
Definition row_of (kv : string * V) : list string :=
  [fst kv; str C (snd kv)].

(** Lines 147-173: the body of the epoch loop. *)
Definition epoch_body (args : Seq2SeqTrainingArguments) (task : nat)
           (train_dataset test_dataset : ds_ref) (tokenizer : T5Tokenizer)
           (evaluate : Evaluate) (data_collator : DataCollatorForSeq2Seq)
           (model : T5ForConditionalGeneration) (epoch : Z) : SE World unit :=
  let kwargs := {| tr_model := model;
                   tr_args := args;
                   tr_train_dataset := train_dataset;
                   tr_eval_dataset := test_dataset;
                   tr_tokenizer := tokenizer;
                   tr_data_collator := data_collator;
                   tr_compute_metrics := evaluate |} in
  trainer <- invoke (CallTrainer kwargs) (Seq2SeqTrainer_init C kwargs) ;;
  invoke (CallTrain trainer) (trainer_train C trainer) ;;;
  progress_update task 1 ;;;
  metrics <- invoke (CallTrainerEvaluate trainer) (trainer_evaluate C trainer) ;;
  let metrics_table := metrics_table_of metrics in
  let metrics_panel := {| panel_body := metrics_table;
                          panel_title := "Evaluation Metrics";
                          expand := false |} in
  console_print (RPanel metrics_panel).

(** The driver for a given configuration: [train_torch] with the literal
    of lines 126-137 replaced by [args].  The calls into the terminal
    library ([Progress], [add_task], [update], [Console], [Table],
    [Panel], [console.print]) and the constructor of the arguments are
    taken to return; of the calls after [setup] only those on the
    trainer may raise here.  What is proved of the driver is therefore
    stated for runs that return, or from a call that is recorded as
    failed. *)
Definition train_torch_with (args : Seq2SeqTrainingArguments)
           (METRIC : Metric) (train_path test_path : Path)
           (source_lang target_lang : string) (size : option string)
  : SE World unit :=
  ' (train_dataset, test_dataset, tokenizer, checkpoint, evaluate,
     data_collator, model) <-
      setup METRIC train_path test_path source_lang target_lang size ;;
  with_Progress
    (task <- add_task "[cyan]Training..." (num_train_epochs args) ;;
     print newline ;;;
     for_each (range (num_train_epochs args))
       (epoch_body args task train_dataset test_dataset tokenizer evaluate
                   data_collator model)) ;;;
  console_print (RText "[green]Training complete![/green]").

Definition train_torch : Metric -> Path -> Path -> string -> string ->
                         option string -> SE World unit :=
  train_torch_with training_args.

(** The default of the parameter [size]. *)
Definition default_size : option string := Some "small".

(** ** The module body (lines 27-30 and 178-179)

    [__name__] is the name the module runs under and [argv] the command
    line of the process. *)
Definition module_body (__name__ : string) (argv : list string) : SE World unit :=
  (fun w => (inr tt, log (EvCall (CallFilterWarnings "ignore") None) w)) ;;;
  (fun w => (inr tt, log (EvCall CallSetVerbosityError None) w)) ;;;
  METRIC <- invoke (CallEvaluateLoad "sacrebleu") (evaluate_load C "sacrebleu") ;;
  if String.eqb __name__ "__main__"
  then train_torch METRIC {| path_text := "dugong/t5_train.json" |}
                   {| path_text := "dugong/t5_test.json" |} "en" "fr"
                   default_size
  else ret tt.

End Script.

(** ** Reading a trace *)

(** The part of a trace that was added between two worlds. *)
Definition events_since {X : Type} (w w' : World X) : list event :=
  skipn (List.length (trace w)) (trace w').

(** The steps of an epoch, as they show in the trace. *)
Inductive step : Type :=
| Construct
| TrainPass
| Advance
| EvaluatePass
| Render.

Definition step_of (ev : event) : option step :=
  match ev with
  | EvCall (CallTrainer _) _ => Some Construct
  | EvCall (CallTrain _) _ => Some TrainPass
  | EvAdvance _ _ => Some Advance
  | EvCall (CallTrainerEvaluate _) _ => Some EvaluatePass
  | EvConsolePrint (RPanel _) => Some Render
  | _ => None
  end.

Fixpoint steps (t : list event) : list step :=
  match t with
  | [] => []
  | ev :: rest =>
      match step_of ev with
      | Some s => s :: steps rest
      | None => steps rest
      end
  end.

Definition step_eqb (a b : step) : bool :=
  match a, b with
  | Construct, Construct => true
  | TrainPass, TrainPass => true
  | Advance, Advance => true
  | EvaluatePass, EvaluatePass => true
  | Render, Render => true
  | _, _ => false
  end.

(** How often a step occurs in a trace. *)
Definition occurrences (s : step) (t : list event) : nat :=
  List.length (filter (step_eqb s) (steps t)).

(** The steps that involve the trainer. *)
Definition is_trainer_step (s : step) : bool :=
  match s with
  | Construct | TrainPass | EvaluatePass => true
  | _ => false
  end.

Definition epoch_steps : list step :=
  [Construct; TrainPass; Advance; EvaluatePass; Render].

(** [k] rounds of the same steps. *)
Fixpoint rounds (k : nat) (round : list step) : list step :=
  match k with
  | O => []
  | S k' => round ++ rounds k' round
  end.

(** Epochs that ran to their end: each ends with its panel printed. *)
Definition completed_epochs (t : list event) : nat := occurrences Render t.

(** The sum of the advances recorded for a task. *)
Fixpoint advanced (task : nat) (t : list event) : Z :=
  match t with
  | [] => 0
  | EvAdvance k a :: rest =>
      if Nat.eqb k task then (a + advanced task rest)%Z else advanced task rest
  | _ :: rest => advanced task rest
  end.

(** A call that raised. *)
Definition failed (ev : event) : Prop :=
  exists (c : call) (e : exn), ev = EvCall c (Some e).

(** Outcome and trace agree: a computation that returns has recorded no
    failed call, and one that raises [e] has recorded exactly one, as its
    last event, and that call raised [e]. *)
Definition logged {X A : Type} (m : SE (World X) A) : Prop :=
  forall w : World X,
    exists t : list event,
      trace (snd (m w)) = trace w ++ t /\
      match fst (m w) with
      | inr _ => Forall (fun ev => ~ failed ev) t
      | inl e =>
          exists (t0 : list event) (c : call),
            t = t0 ++ [EvCall c (Some e)] /\
            Forall (fun ev => ~ failed ev) t0
      end.

(** The keyword arguments of the trainers constructed in a trace. *)
Fixpoint trainers_built (t : list event) : list trainer_kwargs :=
  match t with
  | [] => []
  | EvCall (CallTrainer kw) _ :: rest => kw :: trainers_built rest
  | _ :: rest => trainers_built rest
  end.

(** The panels printed in a trace. *)
Fixpoint panels (t : list event) : list Panel :=
  match t with
  | [] => []
  | EvConsolePrint (RPanel p) :: rest => p :: panels rest
  | _ :: rest => panels rest
  end.

(** The rows of a table whose first cell is [name]. *)
Definition rows_named (name : string) (t : Table) : list (list string) :=
  filter (fun row => match row with
                     | cell :: _ => String.eqb cell name
                     | [] => false
                     end)
         (rows t).

(** ** Test doubles

    A scripted stand-in for the collaborators.  The framework state is
    the number of collaborator calls made so far; a handle carries the
    number of the call that created it; the call numbered [fail_at]
    raises; preprocessing returns two different collections, the train
    one first; evaluation returns the given metrics. *)

Definition scripted {A : Type} (fail_at : option nat) (result : nat -> A)
  : SE nat A :=
  fun n =>
    if match fail_at with
       | Some k => Nat.eqb k n
       | None => false
       end
    then (inl (ExternalError "scripted failure"), S n)
    else (inr (result n), S n).

Definition sample_metrics : dict Z :=
  Dict [("eval_loss", 3%Z); ("eval_bleu", 41%Z)] eq_refl.

Definition aligned_sample : BatchEncoding :=
  {| input_ids := [[13; 7; 1]; [25; 1; 0]]%Z;
     attention_mask := [[1; 1; 1]; [1; 1; 0]]%Z;
     labels := [[6; 1]; [9; 1]]%Z |}.

(** A second aligned collection, with one entry only. *)
Definition held_out_sample : BatchEncoding :=
  {| input_ids := [[31; 2; 1]]%Z;
     attention_mask := [[1; 1; 1]]%Z;
     labels := [[8; 1]]%Z |}.

Definition ragged_sample : BatchEncoding :=
  {| input_ids := [[13; 7; 1]; [25; 1; 0]]%Z;
     attention_mask := [[1; 1; 1]]%Z;
     labels := [] |}.

Definition mock (fail_at : option nat) (metrics : dict Z) : Collaborators nat Z :=
  {| evaluate_load := fun _ => scripted fail_at MetricRef;
     Preprocessor_init := fun _ _ _ _ => scripted fail_at PreprocessorRef;
     preprocess := fun _ _ _ =>
       scripted fail_at (fun _ => (aligned_sample, held_out_sample));
     get_tokenizer := fun _ => scripted fail_at TokenizerRef;
     get_checkpoint := fun _ => scripted fail_at (fun _ => "t5-small");
     Evaluate_init := fun _ _ => scripted fail_at EvaluateRef;
     pad_token_id := fun _ => scripted fail_at (fun _ => Some 0%Z);
     DataCollatorForSeq2Seq_init := fun _ => scripted fail_at CollatorRef;
     from_pretrained := fun _ => scripted fail_at ModelRef;
     Seq2SeqTrainer_init := fun _ => scripted fail_at TrainerRef;
     trainer_train := fun _ => scripted fail_at (fun _ => tt);
     trainer_evaluate := fun _ => scripted fail_at (fun _ => metrics);
     str := fun v => NilZero.string_of_int (Z.to_int v) |}.

(** The world before anything has run. *)
Definition initial_world : World nat := mkWorld empty_heap 0 [] [].

Definition train_path : Path := {| path_text := "dugong/t5_train.json" |}.
Definition test_path : Path := {| path_text := "dugong/t5_test.json" |}.

(** The driver run against the stand-in, from the initial world. *)
Definition sample_run (fail_at : option nat) : (exn + unit) * World nat :=
  train_torch (mock fail_at sample_metrics) (MetricRef 0) train_path test_path
              "en" "fr" default_size initial_world.

(** A world in which the display already has its task, as at the start
    of the epoch loop. *)
Definition epoch_world : World nat :=
  mkWorld empty_heap 0
          [{| description := "[cyan]Training..."; total := 2; completed := 0 |}]
          [].

(** A configuration that differs from [training_args] in the epoch count
    only. *)
Definition with_epochs (n : Z) : Seq2SeqTrainingArguments :=
  {| output_dir := output_dir training_args;
     evaluation_strategy := evaluation_strategy training_args;
     learning_rate := learning_rate training_args;
     per_device_train_batch_size := per_device_train_batch_size training_args;
     per_device_eval_batch_size := per_device_eval_batch_size training_args;
     weight_decay := weight_decay training_args;
     save_total_limit := save_total_limit training_args;
     num_train_epochs := n;
     predict_with_generate := predict_with_generate training_args;
     fp16 := fp16 training_args |}.

(** A collection whose arrays have 2, 1 and 3 entries. *)
Definition uneven_sample : BatchEncoding :=
  {| input_ids := [[13; 7; 1]; [25; 1; 0]]%Z;
     attention_mask := [[1; 1; 1]]%Z;
     labels := [[6; 1]; [9; 1]; [4; 1]]%Z |}.

Definition aligned (enc : BatchEncoding) : Prop :=
  List.length (attention_mask enc) = List.length (input_ids enc) /\
  List.length (labels enc) = List.length (input_ids enc).

(** The methods of a dataset wrapper, as requests, and the store they
    leave behind. *)
Inductive request : Type :=
| Getitem (idx : Z)
| Len.

Definition serve (self : ds_ref) (q : request) (h : Heap) : Heap :=
  match q with
  | Getitem idx => snd (BatchEncodingDataset.__getitem__ self idx h)
  | Len => snd (BatchEncodingDataset.__len__ self h)
  end.

(** ** Reading a trace, continued *)

(** The last thing the driver prints when it runs to its end. *)
Definition success_message : event :=
  EvConsolePrint (RText "[green]Training complete![/green]").

(** The training passes that returned. *)
Fixpoint training_passes_returned (t : list event) : nat :=
  match t with
  | [] => 0
  | EvCall (CallTrain _) None :: rest => S (training_passes_returned rest)
  | _ :: rest => training_passes_returned rest
  end.

(** A call of a collaborator, whatever its outcome. *)
Definition is_call (ev : event) : Prop :=
  exists (c : call) (r : option exn), ev = EvCall c r.

(** A computation that, returning or raising, does nothing that shows
    but calling collaborators: it prints nothing and leaves the progress
    tasks alone. *)
Definition calls_only {X A : Type} (m : SE (World X) A) : Prop :=
  forall w : World X,
    exists t : list event,
      trace (snd (m w)) = trace w ++ t /\
      Forall is_call t /\
      tasks (snd (m w)) = tasks w.

(** One of the five steps of an epoch. *)
Definition epoch_event (ev : event) : Prop := step_of ev <> None.

(** The three entries of a collection at a position, as a lookup returns
    them. *)
Definition item_of (a b c : list Z) : list (string * Tensor) :=
  [("input_ids", torch_tensor a);
   ("attention_mask", torch_tensor b);
   ("labels", torch_tensor c)].


(** * Properties of the dataset wrapper *)

Unset Implicit Arguments.

Section DatasetFacts.

Lemma update_nth_last :
  forall (A : Type) (l : list A) (x y : A),
    update_nth (List.length l) y (l ++ [x]) = l ++ [y].
Proof.
  induction l as [|a l IH]; intros x y; simpl.
  - reflexivity.
  - now rewrite IH.
Qed.

Lemma nth_error_last :
  forall (A : Type) (l : list A) (x : A),
    nth_error (l ++ [x]) (List.length l) = Some x.
Proof.
  intros A l x. rewrite nth_error_app2 by lia.
  now rewrite Nat.sub_diag.
Qed.

(** Construction: a fresh instance is appended to the store with its
    [encodings] attribute set to the given reference; nothing else
    changes and nothing is inspected. *)
Lemma new_run :
  forall (h : Heap) (e : enc_ref),
    BatchEncodingDataset.new e h =
    (inr (DsRef (List.length (instances h))),
     mkHeap (encoding_objs h) (instances h ++ [Instance (Some e)])).
Proof.
  intros h e.
  unfold BatchEncodingDataset.new, BatchEncodingDataset.__init__, bind,
    new_instance, setattr_encodings, instance_at, ret; simpl.
  rewrite nth_error_last, update_nth_last. reflexivity.
Qed.

Lemma getattr_encodings_run :
  forall (h : Heap) (self : ds_ref) (e : enc_ref),
    instance_at h self = Some (Instance (Some e)) ->
    getattr_encodings self h = (inr e, h).
Proof.
  intros h self e H. unfold getattr_encodings. now rewrite H.
Qed.

Lemma getattr_array_run :
  forall (field : BatchEncoding -> list (list Z)) (h : Heap) (e : enc_ref)
         (enc : BatchEncoding),
    encoding_at h e = Some enc ->
    getattr_array field e h = (inr (field enc), h).
Proof.
  intros field h e enc H. unfold getattr_array. now rewrite H.
Qed.

Lemma list_getitem_in_range :
  forall (A : Type) (l : list A) (i : Z),
    (0 <= i < len l)%Z ->
    exists a, nth_error l (Z.to_nat i) = Some a /\ list_getitem l i = inr a.
Proof.
  intros A l i [H0 H1]. unfold len in H1.
  destruct (nth_error l (Z.to_nat i)) as [a|] eqn:E.
  - exists a. split; [reflexivity|].
    unfold list_getitem.
    replace (i <? 0)%Z with false by (symmetry; apply Z.ltb_ge; lia).
    replace (0 <=? i)%Z with true by (symmetry; apply Z.leb_le; lia).
    replace (i <? Z.of_nat (List.length l))%Z with true
      by (symmetry; apply Z.ltb_lt; lia).
    simpl. now rewrite E.
  - apply nth_error_None in E. lia.
Qed.

Lemma list_getitem_past_end :
  forall (A : Type) (l : list A) (i : Z),
    (len l <= i)%Z ->
    list_getitem l i = inl (IndexError "list index out of range").
Proof.
  intros A l i H. unfold len in H. unfold list_getitem.
  replace (i <? 0)%Z with false by (symmetry; apply Z.ltb_ge; lia).
  replace (i <? Z.of_nat (List.length l))%Z with false
    by (symmetry; apply Z.ltb_ge; lia).
  now rewrite andb_false_r.
Qed.

Lemma tensor_at_run :
  forall (field : BatchEncoding -> list (list Z)) (h : Heap) (self : ds_ref)
         (e : enc_ref) (enc : BatchEncoding) (i : Z),
    instance_at h self = Some (Instance (Some e)) ->
    encoding_at h e = Some enc ->
    BatchEncodingDataset.tensor_at field self i h =
    (match list_getitem (field enc) i with
     | inl ex => inl ex
     | inr x => inr (torch_tensor x)
     end, h).
Proof.
  intros field h self e enc i Hs He.
  unfold BatchEncodingDataset.tensor_at, bind.
  rewrite (getattr_encodings_run _ _ _ Hs), (getattr_array_run field _ _ _ He).
  unfold lift_result, ret.
  destruct (list_getitem (field enc) i); reflexivity.
Qed.

Lemma len_run :
  forall (h : Heap) (self : ds_ref) (e : enc_ref) (enc : BatchEncoding),
    instance_at h self = Some (Instance (Some e)) ->
    encoding_at h e = Some enc ->
    BatchEncodingDataset.__len__ self h = (inr (len (input_ids enc)), h).
Proof.
  intros h self e enc Hs He.
  unfold BatchEncodingDataset.__len__, bind.
  rewrite (getattr_encodings_run _ _ _ Hs), (getattr_array_run input_ids _ _ _ He).
  reflexivity.
Qed.

(** No method of the wrapper writes to the store. *)
Lemma tensor_at_frame :
  forall (field : BatchEncoding -> list (list Z)) (self : ds_ref) (i : Z)
         (h : Heap),
    snd (BatchEncodingDataset.tensor_at field self i h) = h.
Proof.
  intros field self i h.
  unfold BatchEncodingDataset.tensor_at, bind, getattr_encodings,
    getattr_array, lift_result, ret.
  destruct (instance_at h self) as [[[e|]]|]; simpl; try reflexivity.
  destruct (encoding_at h e) as [enc|]; simpl; try reflexivity.
  destruct (list_getitem (field enc) i); reflexivity.
Qed.

Lemma getitem_frame :
  forall (self : ds_ref) (i : Z) (h : Heap),
    snd (BatchEncodingDataset.__getitem__ self i h) = h.
Proof.
  intros self i h. unfold BatchEncodingDataset.__getitem__, bind.
  destruct (BatchEncodingDataset.tensor_at input_ids self i h)
    as [[ex|a] h1] eqn:E1;
    pose proof (tensor_at_frame input_ids self i h) as F1;
    rewrite E1 in F1; simpl in F1; subst h1; [reflexivity|].
  destruct (BatchEncodingDataset.tensor_at attention_mask self i h)
    as [[ex|b] h2] eqn:E2;
    pose proof (tensor_at_frame attention_mask self i h) as F2;
    rewrite E2 in F2; simpl in F2; subst h2; [reflexivity|].
  destruct (BatchEncodingDataset.tensor_at labels self i h)
    as [[ex|c] h3] eqn:E3;
    pose proof (tensor_at_frame labels self i h) as F3;
    rewrite E3 in F3; simpl in F3; subst h3; reflexivity.
Qed.

Lemma len_frame :
  forall (self : ds_ref) (h : Heap),
    snd (BatchEncodingDataset.__len__ self h) = h.
Proof.
  intros self h.
  unfold BatchEncodingDataset.__len__, bind, getattr_encodings,
    getattr_array, ret.
  destruct (instance_at h self) as [[[e|]]|]; simpl; try reflexivity.
  destruct (encoding_at h e) as [enc|]; reflexivity.
Qed.

Lemma serve_frame :
  forall (self : ds_ref) (q : request) (h : Heap), serve self q h = h.
Proof.
  intros self [idx|] h; simpl; [apply getitem_frame | apply len_frame].
Qed.

End DatasetFacts.

Section DatasetClaims.

Lemma new_links :
  forall (h : Heap) (e : enc_ref) (enc : BatchEncoding),
    encoding_at h e = Some enc ->
    let self := DsRef (List.length (instances h)) in
    let h' := mkHeap (encoding_objs h) (instances h ++ [Instance (Some e)]) in
    instance_at h' self = Some (Instance (Some e)) /\
    encoding_at h' e = Some enc.
Proof.
  intros h e enc He self h'. split.
  - unfold instance_at, h', self; simpl. apply nth_error_last.
  - exact He.
Qed.

(** C1: a wrapper built from an encoding collection whose three arrays
    all have length [N] reports length [N], and looking up an index [i]
    with [0 <= i < N] returns a record with exactly the keys [input_ids],
    [attention_mask] and [labels], holding the [i]-th entry of each
    array unchanged; neither call alters the store. *)
Theorem dataset_length_and_lookup :
  forall (h : Heap) (e : enc_ref) (enc : BatchEncoding) (N : nat),
    encoding_at h e = Some enc ->
    List.length (input_ids enc) = N ->
    List.length (attention_mask enc) = N ->
    List.length (labels enc) = N ->
    exists (self : ds_ref) (h' : Heap),
      BatchEncodingDataset.new e h = (inr self, h') /\
      BatchEncodingDataset.__len__ self h' = (inr (Z.of_nat N), h') /\
      forall i : Z,
        (0 <= i < Z.of_nat N)%Z ->
        exists (a b c : list Z) (item : dict Tensor),
          nth_error (input_ids enc) (Z.to_nat i) = Some a /\
          nth_error (attention_mask enc) (Z.to_nat i) = Some b /\
          nth_error (labels enc) (Z.to_nat i) = Some c /\
          BatchEncodingDataset.__getitem__ self i h' = (inr item, h') /\
          items item = [("input_ids", {| tensor_data := a |});
                        ("attention_mask", {| tensor_data := b |});
                        ("labels", {| tensor_data := c |})].
Proof.
  intros h e enc N He Hi Ha Hl.
  destruct (new_links h e enc He) as [Hs He'].
  eexists. eexists. split; [apply new_run|]. split.
  - rewrite (len_run _ _ _ _ Hs He'). unfold len. now rewrite Hi.
  - intros i Hr.
    destruct (list_getitem_in_range _ (input_ids enc) i) as [a [Na Ga]];
      [unfold len; lia|].
    destruct (list_getitem_in_range _ (attention_mask enc) i) as [b [Nb Gb]];
      [unfold len; lia|].
    destruct (list_getitem_in_range _ (labels enc) i) as [c [Nc Gc]];
      [unfold len; lia|].
    exists a, b, c. eexists. repeat split; try eassumption.
    + unfold BatchEncodingDataset.__getitem__, bind.
      rewrite (tensor_at_run input_ids _ _ _ _ i Hs He'), Ga.
      rewrite (tensor_at_run attention_mask _ _ _ _ i Hs He'), Gb.
      rewrite (tensor_at_run labels _ _ _ _ i Hs He'), Gc.
      reflexivity.
    + reflexivity.
Qed.

Lemma dataset_length_and_lookup_witness :
  exists (self : ds_ref) (h' : Heap),
    BatchEncodingDataset.new (EncRef 0) (mkHeap [aligned_sample] []) = (inr self, h') /\
    BatchEncodingDataset.__len__ self h' = (inr 2%Z, h') /\
    forall i : Z,
      (0 <= i < 2)%Z ->
      exists (a b c : list Z) (item : dict Tensor),
        nth_error (input_ids aligned_sample) (Z.to_nat i) = Some a /\
        nth_error (attention_mask aligned_sample) (Z.to_nat i) = Some b /\
        nth_error (labels aligned_sample) (Z.to_nat i) = Some c /\
        BatchEncodingDataset.__getitem__ self i h' = (inr item, h') /\
        items item = [("input_ids", {| tensor_data := a |});
                      ("attention_mask", {| tensor_data := b |});
                      ("labels", {| tensor_data := c |})].
Proof.
  apply (dataset_length_and_lookup (mkHeap [aligned_sample] []) (EncRef 0)
           aligned_sample 2); reflexivity.
Defined.

(** C2, as stated, fails: a collection whose arrays have lengths 2, 1 and
    0 is wrapped without any error, and the wrapper reports length 2. *)
Lemma ragged_construction_succeeds :
  ~ aligned ragged_sample /\
  encoding_at (mkHeap [ragged_sample] []) (EncRef 0) = Some ragged_sample /\
  BatchEncodingDataset.new (EncRef 0) (mkHeap [ragged_sample] []) =
    (inr (DsRef 0), mkHeap [ragged_sample] [Instance (Some (EncRef 0))]) /\
  BatchEncodingDataset.__len__ (DsRef 0)
    (mkHeap [ragged_sample] [Instance (Some (EncRef 0))]) =
    (inr 2%Z, mkHeap [ragged_sample] [Instance (Some (EncRef 0))]).
Proof.
  split.
  - intros [H _]. discriminate H.
  - repeat split; reflexivity.
Qed.

(** C2, amended: construction never fails and never looks at the arrays.
    Whatever their lengths, the new wrapper is appended to the store with
    its [encodings] attribute set, the collection is left as it was, and
    the wrapper's length is that of [input_ids]. *)
Theorem construction_never_checks :
  forall (h : Heap) (e : enc_ref) (enc : BatchEncoding),
    encoding_at h e = Some enc ->
    exists (self : ds_ref) (h' : Heap),
      BatchEncodingDataset.new e h = (inr self, h') /\
      instance_at h' self = Some (Instance (Some e)) /\
      encoding_at h' e = Some enc /\
      encoding_objs h' = encoding_objs h /\
      BatchEncodingDataset.__len__ self h' = (inr (len (input_ids enc)), h').
Proof.
  intros h e enc He.
  destruct (new_links h e enc He) as [Hs He'].
  eexists. eexists. split; [apply new_run|].
  repeat split; try assumption.
  apply (len_run _ _ _ _ Hs He').
Qed.

Lemma construction_never_checks_witness :
  exists (self : ds_ref) (h' : Heap),
    BatchEncodingDataset.new (EncRef 0) (mkHeap [ragged_sample] []) = (inr self, h') /\
    instance_at h' self = Some (Instance (Some (EncRef 0))) /\
    encoding_at h' (EncRef 0) = Some ragged_sample /\
    encoding_objs h' = [ragged_sample] /\
    BatchEncodingDataset.__len__ self h' = (inr 2%Z, h').
Proof.
  apply (construction_never_checks (mkHeap [ragged_sample] []) (EncRef 0)
           ragged_sample).
  reflexivity.
Defined.

(** C8: lookup and length leave the store as they found it, whether they
    return or raise; so does any sequence of such calls.  The wrapper's
    attribute and the collection it refers to are part of the store. *)
Theorem wrapper_operations_do_not_mutate :
  forall (self : ds_ref) (h : Heap),
    (forall i : Z, snd (BatchEncodingDataset.__getitem__ self i h) = h) /\
    snd (BatchEncodingDataset.__len__ self h) = h /\
    (forall qs : list request,
        let h' := fold_left (fun s q => serve self q s) qs h in
        h' = h /\
        instance_at h' self = instance_at h self /\
        forall e : enc_ref, encoding_at h' e = encoding_at h e).
Proof.
  intros self h. split; [|split].
  - intro i. apply getitem_frame.
  - apply len_frame.
  - intros qs h'.
    assert (E : h' = h).
    { unfold h'. clear h'. induction qs as [|q qs IH]; simpl.
      - reflexivity.
      - rewrite serve_frame. exact IH. }
    rewrite E. repeat split; reflexivity.
Qed.

(** C10: the wrapper's length is the length of [input_ids] alone, and
    every index below it that lies past the end of [attention_mask] or of
    [labels] makes the lookup raise [IndexError]. *)
Theorem length_ignores_mask_and_labels :
  forall (h : Heap) (self : ds_ref) (e : enc_ref) (enc : BatchEncoding),
    instance_at h self = Some (Instance (Some e)) ->
    encoding_at h e = Some enc ->
    BatchEncodingDataset.__len__ self h = (inr (len (input_ids enc)), h) /\
    forall i : Z,
      (0 <= i < len (input_ids enc))%Z ->
      (len (attention_mask enc) <= i \/ len (labels enc) <= i)%Z ->
      BatchEncodingDataset.__getitem__ self i h =
      (inl (IndexError "list index out of range"), h).
Proof.
  intros h self e enc Hs He. split.
  - apply (len_run _ _ _ _ Hs He).
  - intros i Hr Hshort.
    destruct (list_getitem_in_range _ (input_ids enc) i Hr) as [a [_ Ga]].
    unfold BatchEncodingDataset.__getitem__, bind.
    rewrite (tensor_at_run input_ids _ _ _ _ i Hs He), Ga.
    rewrite (tensor_at_run attention_mask _ _ _ _ i Hs He).
    destruct (Z_le_gt_dec (len (attention_mask enc)) i) as [Hm|Hm].
    + now rewrite (list_getitem_past_end _ _ _ Hm).
    + destruct (list_getitem_in_range _ (attention_mask enc) i) as [b [_ Gb]];
        [lia|].
      rewrite Gb, (tensor_at_run labels _ _ _ _ i Hs He).
      destruct Hshort as [Hm'|Hl]; [lia|].
      now rewrite (list_getitem_past_end _ _ _ Hl).
Qed.

Lemma length_ignores_mask_and_labels_witness :
  let h := mkHeap [ragged_sample] [Instance (Some (EncRef 0))] in
  BatchEncodingDataset.__len__ (DsRef 0) h = (inr 2%Z, h) /\
  BatchEncodingDataset.__getitem__ (DsRef 0) 1 h =
  (inl (IndexError "list index out of range"), h).
Proof.
  intro h.
  destruct (length_ignores_mask_and_labels h (DsRef 0) (EncRef 0) ragged_sample
              eq_refl eq_refl) as [HL HG].
  split; [exact HL|].
  apply HG; unfold len; simpl; lia.
Defined.

End DatasetClaims.

(** * Properties of the script *)

(** ** Generic facts: binds, traces, lists of steps *)

Section MonadFacts.

Context {S A B : Type}.

Lemma bind_inr :
  forall (m : SE S A) (k : A -> SE S B) (s s2 : S) (b : B),
    bind m k s = (inr b, s2) ->
    exists (a : A) (s1 : S), m s = (inr a, s1) /\ k a s1 = (inr b, s2).
Proof.
  intros m k s s2 b H. unfold bind in H.
  destruct (m s) as [[e|a] s1]; [discriminate|].
  exists a, s1. split; [reflexivity | exact H].
Qed.

Lemma bind_inl :
  forall (m : SE S A) (k : A -> SE S B) (s s1 : S) (e : exn),
    m s = (inl e, s1) -> bind m k s = (inl e, s1).
Proof.
  intros m k s s1 e H. unfold bind. now rewrite H.
Qed.

Lemma bind_step :
  forall (m : SE S A) (k : A -> SE S B) (s s1 : S) (a : A),
    m s = (inr a, s1) -> bind m k s = k a s1.
Proof.
  intros m k s s1 a H. unfold bind. now rewrite H.
Qed.

End MonadFacts.

Section ListFacts.

Lemma skipn_length_app :
  forall (T : Type) (l t : list T), skipn (List.length l) (l ++ t) = t.
Proof.
  induction l as [|x l IH]; intro t; simpl; [reflexivity | apply IH].
Qed.

Lemma steps_app :
  forall t1 t2 : list event, steps (t1 ++ t2) = steps t1 ++ steps t2.
Proof.
  induction t1 as [|ev t1 IH]; intro t2; simpl.
  - reflexivity.
  - destruct (step_of ev); simpl; now rewrite IH.
Qed.

Lemma advanced_app :
  forall (task : nat) (t1 t2 : list event),
    advanced task (t1 ++ t2) = (advanced task t1 + advanced task t2)%Z.
Proof.
  intros task. induction t1 as [|ev t1 IH]; intro t2; simpl.
  - reflexivity.
  - destruct ev; try apply IH.
    destruct (Nat.eqb task0 task); rewrite IH; lia.
Qed.

Lemma trainers_built_app :
  forall t1 t2 : list event,
    trainers_built (t1 ++ t2) = trainers_built t1 ++ trainers_built t2.
Proof.
  induction t1 as [|ev t1 IH]; intro t2; simpl.
  - reflexivity.
  - destruct ev as [[] ?| | | | | |]; simpl; now rewrite IH.
Qed.

Lemma panels_app :
  forall t1 t2 : list event, panels (t1 ++ t2) = panels t1 ++ panels t2.
Proof.
  induction t1 as [|ev t1 IH]; intro t2; simpl.
  - reflexivity.
  - destruct ev as [| | | | | |[]]; simpl; now rewrite IH.
Qed.

Lemma occurrences_app :
  forall (s : step) (t1 t2 : list event),
    occurrences s (t1 ++ t2) = occurrences s t1 + occurrences s t2.
Proof.
  intros s t1 t2. unfold occurrences.
  now rewrite steps_app, filter_app, length_app.
Qed.

Lemma range_length :
  forall n : Z, (0 <= n)%Z -> Z.of_nat (List.length (range n)) = n.
Proof.
  intros n H. unfold range. rewrite length_map, length_seq. lia.
Qed.

Lemma filter_rounds :
  forall (p : step -> bool) (k : nat) (round : list step),
    filter p (rounds k round) = rounds k (filter p round).
Proof.
  intros p k round. induction k as [|k IH]; simpl.
  - reflexivity.
  - now rewrite filter_app, IH.
Qed.

Lemma length_rounds :
  forall (k : nat) (round : list step),
    List.length (rounds k round) = k * List.length round.
Proof.
  intros k round. induction k as [|k IH]; simpl.
  - reflexivity.
  - now rewrite length_app, IH.
Qed.

End ListFacts.

(** ** Outcome and trace of a computation *)

Section LoggedFacts.

Context {X : Type}.

Lemma events_since_app :
  forall (w w' : World X) (t : list event),
    trace w' = trace w ++ t -> events_since w w' = t.
Proof.
  intros w w' t H. unfold events_since. rewrite H. apply skipn_length_app.
Qed.

Lemma not_failed_returned :
  forall c : call, ~ failed (EvCall c None).
Proof.
  intros c [c' [e H]]. discriminate H.
Qed.

Lemma logged_ret :
  forall (A : Type) (a : A), logged (@ret (World X) A a).
Proof.
  intros A a w. exists []. simpl. split; [now rewrite app_nil_r | constructor].
Qed.

Lemma logged_invoke :
  forall (A : Type) (c : call) (op : SE X A), logged (invoke c op).
Proof.
  intros A c op w. unfold invoke.
  destruct (op (ext w)) as [[e|a] x']; simpl.
  - exists [EvCall c (Some e)]. split; [reflexivity|].
    exists [], c. split; [reflexivity | constructor].
  - exists [EvCall c None]. split; [reflexivity|].
    constructor; [apply not_failed_returned | constructor].
Qed.

Lemma logged_on_heap :
  forall (A : Type) (op : SE Heap A),
    (forall h : Heap, exists (a : A) (h' : Heap), op h = (inr a, h')) ->
    logged (@on_heap X A op).
Proof.
  intros A op Hop w. unfold on_heap.
  destruct (Hop (heap w)) as [a [h' E]]. rewrite E. simpl.
  exists []. split; [now rewrite app_nil_r | constructor].
Qed.

Lemma logged_bind :
  forall (A B : Type) (m : SE (World X) A) (k : A -> SE (World X) B),
    logged m -> (forall a : A, logged (k a)) -> logged (bind m k).
Proof.
  intros A B m k Hm Hk w. unfold bind.
  destruct (Hm w) as [t1 [T1 O1]].
  destruct (m w) as [[e|a] w1]; simpl in *.
  - exists t1. split; assumption.
  - destruct (Hk a w1) as [t2 [T2 O2]].
    exists (t1 ++ t2). split.
    + now rewrite T2, T1, app_assoc.
    + destruct (fst (k a w1)) as [e|b].
      * destruct O2 as [t0 [c [E F]]].
        exists (t1 ++ t0), c. split.
        -- now rewrite E, app_assoc.
        -- apply Forall_app. split; assumption.
      * apply Forall_app. split; assumption.
Qed.

Lemma alloc_encoding_returns :
  forall (enc : BatchEncoding) (h : Heap),
    exists (a : enc_ref) (h' : Heap), alloc_encoding enc h = (inr a, h').
Proof.
  intros enc h. unfold alloc_encoding. eexists. eexists. reflexivity.
Qed.

Lemma new_returns :
  forall (e : enc_ref) (h : Heap),
    exists (a : ds_ref) (h' : Heap), BatchEncodingDataset.new e h = (inr a, h').
Proof.
  intros e h. rewrite new_run. eexists. eexists. reflexivity.
Qed.

(** A failed call in the trace of a logged computation decides its
    outcome. *)
Lemma logged_failure :
  forall (A : Type) (m : SE (World X) A) (w : World X) (c : call) (e : exn),
    logged m ->
    In (EvCall c (Some e)) (events_since w (snd (m w))) ->
    fst (m w) = inl e.
Proof.
  intros A m w c e Hm Hin.
  destruct (Hm w) as [t [T O]].
  rewrite (events_since_app _ _ _ T) in Hin.
  destruct (fst (m w)) as [e'|a].
  - destruct O as [t0 [c' [E F]]]. subst t.
    apply in_app_or in Hin. destruct Hin as [Hin|Hin].
    + rewrite Forall_forall in F. exfalso. apply (F _ Hin).
      exists c, e. reflexivity.
    + destruct Hin as [Hin|[]]. now inversion Hin.
  - rewrite Forall_forall in O. exfalso. apply (O _ Hin).
    exists c, e. reflexivity.
Qed.

End LoggedFacts.

(** ** setup *)

Section SetupFacts.

Variables X V : Type.
Variable C : Collaborators X V.

Lemma setup_logged :
  forall (METRIC : Metric) (train_path test_path : Path)
         (source_lang target_lang : string) (size : option string),
    logged (setup C METRIC train_path test_path source_lang target_lang size).
Proof.
  intros. unfold setup.
  repeat first
    [ apply logged_invoke
    | apply logged_ret
    | apply logged_on_heap; first [apply alloc_encoding_returns | apply new_returns]
    | apply logged_bind; [| intros ?]
    | match goal with |- logged (let (_, _) := ?p in _) => destruct p end ].
Qed.

End SetupFacts.

Section SetupRuns.

Variables X V : Type.
Variable C : Collaborators X V.

Lemma invoke_inr :
  forall (A : Type) (c : call) (op : SE X A) (w w' : World X) (a : A),
    invoke c op w = (inr a, w') ->
    exists x' : X,
      op (ext w) = (inr a, x') /\
      w' = mkWorld (heap w) x' (tasks w) (trace w ++ [EvCall c None]).
Proof.
  intros A c op w w' a H. unfold invoke in H.
  destruct (op (ext w)) as [[e|a'] x']; [discriminate|].
  inversion H; subst. exists x'. split; reflexivity.
Qed.

Lemma on_heap_inr :
  forall (A : Type) (op : SE Heap A) (w w' : World X) (a : A),
    on_heap op w = (inr a, w') ->
    exists h' : Heap,
      op (heap w) = (inr a, h') /\
      w' = mkWorld h' (ext w) (tasks w) (trace w).
Proof.
  intros A op w w' a H. unfold on_heap in H.
  destruct (op (heap w)) as [[e|a'] h']; [discriminate|].
  inversion H; subst. exists h'. split; reflexivity.
Qed.

(** What a successful [setup] has done: every collaborator call returned,
    in the order of the source, and the result tuple is made of what they
    returned. *)
Lemma setup_inr :
  forall (METRIC : Metric) (train_path test_path : Path)
         (source_lang target_lang : string) (size : option string)
         (w w' : World X) (r : SetupResult),
    setup C METRIC train_path test_path source_lang target_lang size w = (inr r, w') ->
    exists (p : Preprocessor) (train_enc test_enc : BatchEncoding)
           (tok : T5Tokenizer) (ckpt : string) (ev : Evaluate) (pad : option Z)
           (dc : DataCollatorForSeq2Seq) (m : T5ForConditionalGeneration)
           (x1 x2 x3 x4 x5 x6 x7 x8 : X),
      Preprocessor_init C "t5" size source_lang target_lang (ext w) = (inr p, x1) /\
      preprocess C p train_path test_path x1 = (inr (train_enc, test_enc), x2) /\
      get_tokenizer C p x2 = (inr tok, x3) /\
      get_checkpoint C p x3 = (inr ckpt, x4) /\
      Evaluate_init C tok METRIC x4 = (inr ev, x5) /\
      pad_token_id C tok x5 = (inr pad, x6) /\
      DataCollatorForSeq2Seq_init C
        {| dc_tokenizer := tok; dc_model := ckpt; dc_padding := true;
           dc_label_pad_token_id := pad |} x6 = (inr dc, x7) /\
      from_pretrained C ckpt x7 = (inr m, x8) /\
      r = (DsRef (List.length (instances (heap w))),
           DsRef (S (List.length (instances (heap w)))),
           tok, ckpt, ev, dc, m) /\
      w' = mkWorld
             (mkHeap (encoding_objs (heap w) ++ [train_enc; test_enc])
                     (instances (heap w) ++
                      [Instance (Some (EncRef (List.length (encoding_objs (heap w)))));
                       Instance (Some (EncRef (S (List.length (encoding_objs (heap w))))))]))
             x8 (tasks w)
             (trace w ++
              [EvCall (CallPreprocessor "t5" size source_lang target_lang) None;
               EvCall (CallPreprocess p train_path test_path) None;
               EvCall (CallGetTokenizer p) None;
               EvCall (CallGetCheckpoint p) None;
               EvCall (CallEvaluate tok METRIC) None;
               EvCall (CallPadTokenId tok) None;
               EvCall (CallDataCollator
                         {| dc_tokenizer := tok; dc_model := ckpt;
                            dc_padding := true;
                            dc_label_pad_token_id := pad |}) None;
               EvCall (CallFromPretrained ckpt) None]).
Proof.
  intros METRIC train_path test_path source_lang target_lang size w w' r H.
  unfold setup in H.
  apply bind_inr in H. destruct H as [p [w1 [H1 H]]].
  apply invoke_inr in H1. destruct H1 as [x1 [E1 W1]].
  apply bind_inr in H. destruct H as [[train_enc test_enc] [w2 [H2 H]]].
  apply invoke_inr in H2. destruct H2 as [x2 [E2 W2]].
  apply bind_inr in H. destruct H as [e_train [w2a [Ha H]]].
  apply on_heap_inr in Ha. destruct Ha as [ha [Ea Wa]].
  apply bind_inr in H. destruct H as [e_test [w2b [Hb H]]].
  apply on_heap_inr in Hb. destruct Hb as [hb [Eb Wb]].
  apply bind_inr in H. destruct H as [tok [w3 [H3 H]]].
  apply invoke_inr in H3. destruct H3 as [x3 [E3 W3]].
  apply bind_inr in H. destruct H as [ckpt [w4 [H4 H]]].
  apply invoke_inr in H4. destruct H4 as [x4 [E4 W4]].
  apply bind_inr in H. destruct H as [ev [w5 [H5 H]]].
  apply invoke_inr in H5. destruct H5 as [x5 [E5 W5]].
  apply bind_inr in H. destruct H as [pad [w6 [H6 H]]].
  apply invoke_inr in H6. destruct H6 as [x6 [E6 W6]].
  cbv zeta in H.
  apply bind_inr in H. destruct H as [dc [w7 [H7 H]]].
  apply invoke_inr in H7. destruct H7 as [x7 [E7 W7]].
  apply bind_inr in H. destruct H as [m [w8 [H8 H]]].
  apply invoke_inr in H8. destruct H8 as [x8 [E8 W8]].
  apply bind_inr in H. destruct H as [d_train [w9 [H9 H]]].
  apply on_heap_inr in H9. destruct H9 as [h9 [E9 W9]].
  apply bind_inr in H. destruct H as [d_test [w10 [H10 H]]].
  apply on_heap_inr in H10. destruct H10 as [h10 [E10 W10]].
  unfold ret in H. inversion H; subst r w'. clear H.
  exists p, train_enc, test_enc, tok, ckpt, ev, pad, dc, m,
         x1, x2, x3, x4, x5, x6, x7, x8.
  subst w1; simpl in *. subst w2; simpl in *.
  unfold alloc_encoding in Ea. inversion Ea; subst e_train ha. clear Ea.
  subst w2a; simpl in *.
  unfold alloc_encoding in Eb. inversion Eb; subst e_test hb. clear Eb.
  subst w2b; simpl in *. subst w3; simpl in *. subst w4; simpl in *.
  subst w5; simpl in *. subst w6; simpl in *. subst w7; simpl in *.
  subst w8; simpl in *.
  rewrite new_run in E9. inversion E9; subst d_train h9. clear E9.
  subst w9; simpl in *.
  rewrite new_run in E10. inversion E10; subst d_test h10. clear E10.
  subst w10; simpl in *.
  repeat (split; [assumption|]).
  split.
  - rewrite length_app. simpl. rewrite Nat.add_1_r. reflexivity.
  - rewrite length_app. simpl. rewrite Nat.add_1_r.
    repeat rewrite <- app_assoc. reflexivity.
Qed.

End SetupRuns.

(** ** The epoch loop *)

Section LoopRuns.

Variables X V : Type.
Variable C : Collaborators X V.

Variable args : Seq2SeqTrainingArguments.
Variables train_dataset test_dataset : ds_ref.
Variable tokenizer : T5Tokenizer.
Variable evaluate : Evaluate.
Variable data_collator : DataCollatorForSeq2Seq.
Variable model : T5ForConditionalGeneration.

Let kwargs : trainer_kwargs :=
  {| tr_model := model;
     tr_args := args;
     tr_train_dataset := train_dataset;
     tr_eval_dataset := test_dataset;
     tr_tokenizer := tokenizer;
     tr_data_collator := data_collator;
     tr_compute_metrics := evaluate |}.

Let body (task : nat) : Z -> SE (World X) unit :=
  epoch_body C args task train_dataset test_dataset tokenizer evaluate
             data_collator model.

(** One epoch that ran to its end. *)
Lemma epoch_body_inr :
  forall (task : nat) (epoch : Z) (w w' : World X) (u : unit),
    body task epoch w = (inr u, w') ->
    exists (trainer : Seq2SeqTrainer) (metrics : dict V) (t0 : Task)
           (x1 x2 x3 : X),
      Seq2SeqTrainer_init C kwargs (ext w) = (inr trainer, x1) /\
      trainer_train C trainer x1 = (inr tt, x2) /\
      trainer_evaluate C trainer x2 = (inr metrics, x3) /\
      nth_error (tasks w) task = Some t0 /\
      w' = mkWorld (heap w) x3
             (update_nth task
                {| description := description t0; total := total t0;
                   completed := (completed t0 + 1)%Z |} (tasks w))
             (trace w ++
              [EvCall (CallTrainer kwargs) None;
               EvCall (CallTrain trainer) None;
               EvAdvance task 1;
               EvCall (CallTrainerEvaluate trainer) None;
               EvConsolePrint
                 (RPanel {| panel_body := metrics_table_of C metrics;
                            panel_title := "Evaluation Metrics";
                            expand := false |})]).
Proof.
  intros task epoch w w' u H. unfold body, epoch_body in H. cbv zeta in H.
  apply bind_inr in H. destruct H as [trainer [w1 [H1 H]]].
  apply invoke_inr in H1. destruct H1 as [x1 [E1 W1]].
  apply bind_inr in H. destruct H as [[] [w2 [H2 H]]].
  apply invoke_inr in H2. destruct H2 as [x2 [E2 W2]].
  apply bind_inr in H. destruct H as [[] [w3 [H3 H]]].
  apply bind_inr in H. destruct H as [metrics [w4 [H4 H]]].
  apply invoke_inr in H4. destruct H4 as [x3 [E3 W4]].
  unfold progress_update in H3.
  subst w1; simpl in *. subst w2; simpl in *.
  destruct (nth_error (tasks w) task) as [t0|] eqn:T; [|discriminate].
  inversion H3; subst w3; clear H3. simpl in *. subst w4; simpl in *.
  unfold console_print, log in H. inversion H; subst w'; clear H. simpl.
  exists trainer, metrics, t0, x1, x2, x3.
  repeat (split; [assumption || reflexivity|]).
  repeat rewrite <- app_assoc. reflexivity.
Qed.

(** A loop that ran to its end: one round of steps per element, one
    advance of the task by one per element, the store untouched. *)
Lemma for_each_inr :
  forall (xs : list Z) (w w' : World X) (u : unit)
         (d : string) (tot c0 : Z),
    for_each xs (body 0) w = (inr u, w') ->
    tasks w = [{| description := d; total := tot; completed := c0 |}] ->
    exists t : list event,
      trace w' = trace w ++ t /\
      steps t = rounds (List.length xs) epoch_steps /\
      advanced 0 t = Z.of_nat (List.length xs) /\
      Forall (fun ev => forall k a, ev = EvAdvance k a -> k = 0 /\ a = 1%Z) t /\
      Forall (fun ev => ~ failed ev) t /\
      trainers_built t = repeat kwargs (List.length xs) /\
      heap w' = heap w /\
      tasks w' = [{| description := d; total := tot;
                     completed := (c0 + Z.of_nat (List.length xs))%Z |}].
Proof.
  induction xs as [|x xs IH]; intros w w' u d tot c0 H T.
  - simpl in H. unfold ret in H. inversion H; subst w'.
    exists []. rewrite app_nil_r, T, Z.add_0_r.
    repeat split; constructor.
  - simpl in H. apply bind_inr in H. destruct H as [[] [w1 [H1 H]]].
    apply epoch_body_inr in H1.
    destruct H1 as [trainer [metrics [t0 [x1 [x2 [x3 [E1 [E2 [E3 [N W1]]]]]]]]]].
    rewrite T in N. simpl in N. inversion N; subst t0; clear N. simpl in W1.
    assert (T1 : tasks w1 =
                 [{| description := d; total := tot; completed := (c0 + 1)%Z |}]).
    { subst w1. simpl. rewrite T. reflexivity. }
    destruct (IH w1 w' u d tot (c0 + 1)%Z H T1)
      as [t [Tr [St [Ad [Fa [Ff [Tb [Hp Tk]]]]]]]].
    eexists. split.
    { rewrite Tr. subst w1. simpl. rewrite <- app_assoc. reflexivity. }
    split; [|split; [|split; [|split; [|split; [|split]]]]].
    + simpl. now rewrite St.
    + cbn [List.length app advanced Nat.eqb]. rewrite Ad. lia.
    + repeat (constructor; [intros k a Hk; try discriminate Hk|]).
      * inversion Hk. split; reflexivity.
      * exact Fa.
    + repeat (constructor;
              [intros [c' [e' Hf]]; discriminate Hf|]).
      exact Ff.
    + simpl. now rewrite Tb.
    + rewrite Hp. subst w1. reflexivity.
    + rewrite Tk. cbn [List.length].
      replace (c0 + Z.of_nat (S (List.length xs)))%Z
        with (c0 + 1 + Z.of_nat (List.length xs))%Z by lia.
      reflexivity.
Qed.

End LoopRuns.

(** ** The driver *)

Section DriverRuns.

Variables X V : Type.
Variable C : Collaborators X V.

Lemma with_Progress_inr :
  forall (A : Type) (body : SE (World X) A) (w w' : World X) (a : A),
    with_Progress body w = (inr a, w') ->
    exists w2 : World X,
      body (mkWorld (heap w) (ext w) [] (trace w ++ [EvProgressStart])) = (inr a, w2) /\
      w' = log EvProgressStop w2.
Proof.
  intros A body w w' a H. unfold with_Progress in H. cbv zeta in H.
  destruct (body (mkWorld (heap w) (ext w) [] (trace w ++ [EvProgressStart])))
    as [r w2].
  inversion H; subst. exists w2. split; reflexivity.
Qed.

(** A run of the driver that ran to its end: [setup] succeeded, then the
    display was started and the task added, then the loop emitted one
    round of steps per epoch, then the display was stopped and the final
    message printed. *)
Lemma train_torch_with_inr :
  forall (args : Seq2SeqTrainingArguments) (METRIC : Metric)
         (train_path test_path : Path) (source_lang target_lang : string)
         (size : option string) (w w' : World X) (u : unit),
    train_torch_with C args METRIC train_path test_path source_lang
                     target_lang size w = (inr u, w') ->
    exists (train_dataset test_dataset : ds_ref) (tokenizer : T5Tokenizer)
           (checkpoint : string) (evaluate : Evaluate)
           (data_collator : DataCollatorForSeq2Seq)
           (model : T5ForConditionalGeneration)
           (w1 : World X) (tl : list event),
      setup C METRIC train_path test_path source_lang target_lang size w =
        (inr (train_dataset, test_dataset, tokenizer, checkpoint, evaluate,
              data_collator, model), w1) /\
      trace w' =
        trace w1 ++
        [EvProgressStart;
         EvAddTask "[cyan]Training..." (num_train_epochs args);
         EvPrint newline] ++
        tl ++
        [EvProgressStop;
         EvConsolePrint (RText "[green]Training complete![/green]")] /\
      steps tl = rounds (Z.to_nat (num_train_epochs args)) epoch_steps /\
      advanced 0 tl = Z.of_nat (Z.to_nat (num_train_epochs args)) /\
      Forall (fun ev => forall k a, ev = EvAdvance k a -> k = 0 /\ a = 1%Z) tl /\
      Forall (fun ev => ~ failed ev) tl /\
      trainers_built tl =
        repeat {| tr_model := model;
                  tr_args := args;
                  tr_train_dataset := train_dataset;
                  tr_eval_dataset := test_dataset;
                  tr_tokenizer := tokenizer;
                  tr_data_collator := data_collator;
                  tr_compute_metrics := evaluate |}
               (Z.to_nat (num_train_epochs args)) /\
      tasks w' =
        [{| description := "[cyan]Training...";
            total := num_train_epochs args;
            completed := Z.of_nat (Z.to_nat (num_train_epochs args)) |}].
Proof.
  intros args METRIC train_path test_path source_lang target_lang size w w' u H.
  unfold train_torch_with in H.
  apply bind_inr in H.
  destruct H as [[[[[[[train test] tok] ckpt] ev] dc] m] [w1 [Hs H]]].
  apply bind_inr in H. destruct H as [[] [w2 [Hp H]]].
  apply with_Progress_inr in Hp. destruct Hp as [w3 [Hb W2]].
  apply bind_inr in Hb. destruct Hb as [task [w4 [Ht Hb]]].
  unfold add_task in Ht. simpl in Ht. inversion Ht; subst task w4; clear Ht.
  apply bind_inr in Hb. destruct Hb as [[] [w5 [Hpr Hb]]].
  unfold print, log in Hpr. simpl in Hpr. inversion Hpr; subst w5; clear Hpr.
  eapply for_each_inr in Hb; [|reflexivity].
  destruct Hb as [tl [Tr [St [Ad [Fa [Ff [Tb [Hp Tk]]]]]]]].
  simpl in Tr, Tk.
  assert (L : List.length (range (num_train_epochs args)) =
              Z.to_nat (num_train_epochs args)).
  { unfold range. now rewrite length_map, length_seq. }
  rewrite L in *.
  unfold console_print, log in H. inversion H; subst w'; clear H.
  subst w2. simpl.
  exists train, test, tok, ckpt, ev, dc, m, w1, tl.
  split; [exact Hs|].
  split; [rewrite Tr; repeat rewrite <- app_assoc; reflexivity|].
  repeat (split; [assumption|]).
  rewrite Tk. reflexivity.
Qed.

End DriverRuns.

Section CompletedRuns.

Variables X V : Type.
Variable C : Collaborators X V.

(** The whole trace of a run that ran to its end, read step by step. *)
Lemma completed_run :
  forall (args : Seq2SeqTrainingArguments) (METRIC : Metric)
         (train_path test_path : Path) (source_lang target_lang : string)
         (size : option string) (w w' : World X) (u : unit),
    train_torch_with C args METRIC train_path test_path source_lang
                     target_lang size w = (inr u, w') ->
    exists (train_dataset test_dataset : ds_ref) (tokenizer : T5Tokenizer)
           (checkpoint : string) (evaluate : Evaluate)
           (data_collator : DataCollatorForSeq2Seq)
           (model : T5ForConditionalGeneration)
           (w1 : World X) (t0 : list event),
      setup C METRIC train_path test_path source_lang target_lang size w =
        (inr (train_dataset, test_dataset, tokenizer, checkpoint, evaluate,
              data_collator, model), w1) /\
      events_since w w' =
        t0 ++ [EvProgressStop;
               EvConsolePrint (RText "[green]Training complete![/green]")] /\
      steps (events_since w w') =
        rounds (Z.to_nat (num_train_epochs args)) epoch_steps /\
      advanced 0 (events_since w w') =
        Z.of_nat (Z.to_nat (num_train_epochs args)) /\
      (forall k a, In (EvAdvance k a) (events_since w w') -> k = 0 /\ a = 1%Z) /\
      trainers_built (events_since w w') =
        repeat {| tr_model := model;
                  tr_args := args;
                  tr_train_dataset := train_dataset;
                  tr_eval_dataset := test_dataset;
                  tr_tokenizer := tokenizer;
                  tr_data_collator := data_collator;
                  tr_compute_metrics := evaluate |}
               (Z.to_nat (num_train_epochs args)) /\
      tasks w' =
        [{| description := "[cyan]Training...";
            total := num_train_epochs args;
            completed := Z.of_nat (Z.to_nat (num_train_epochs args)) |}].
Proof.
  intros args METRIC train_path test_path source_lang target_lang size w w' u H.
  destruct (train_torch_with_inr _ _ C _ _ _ _ _ _ _ _ _ _ H)
    as [train [test [tok [ckpt [ev [dc [m [w1 [tl
          [Hs [Tr [St [Ad [Fa [Ff [Tb Tk]]]]]]]]]]]]]]]].
  destruct (setup_inr _ _ C _ _ _ _ _ _ _ _ _ Hs)
    as [p [train_enc [test_enc [tok' [ckpt' [ev' [pad [dc' [m'
          [x1 [x2 [x3 [x4 [x5 [x6 [x7 [x8
            [_ [_ [_ [_ [_ [_ [_ [_ [_ W1]]]]]]]]]]]]]]]]]]]]]]]]]].
  assert (T1 : exists ts,
             trace w1 = trace w ++ ts /\ steps ts = [] /\
             advanced 0 ts = 0%Z /\ trainers_built ts = [] /\
             forall k a, ~ In (EvAdvance k a) ts).
  { subst w1. simpl. eexists. split; [reflexivity|].
    repeat split.
    intros k a Hin. simpl in Hin.
    repeat (destruct Hin as [Hin|Hin]; [discriminate Hin|]). exact Hin. }
  destruct T1 as [ts [T1 [S1 [A1 [B1 N1]]]]].
  exists train, test, tok, ckpt, ev, dc, m, w1.
  exists (ts ++ [EvProgressStart;
                 EvAddTask "[cyan]Training..." (num_train_epochs args);
                 EvPrint newline] ++ tl).
  assert (E : events_since w w' =
              ts ++ [EvProgressStart;
                     EvAddTask "[cyan]Training..." (num_train_epochs args);
                     EvPrint newline] ++ tl ++
              [EvProgressStop;
               EvConsolePrint (RText "[green]Training complete![/green]")]).
  { apply events_since_app. rewrite Tr, T1.
    repeat rewrite <- app_assoc. reflexivity. }
  rewrite E.
  split; [exact Hs|].
  split; [repeat rewrite <- app_assoc; reflexivity|].
  split; [rewrite steps_app, S1; simpl; rewrite steps_app, St; simpl;
          apply app_nil_r|].
  split; [rewrite advanced_app, A1; simpl; rewrite advanced_app, Ad; simpl; lia|].
  split.
  { intros k a Hin. apply in_app_or in Hin. destruct Hin as [Hin|Hin];
      [exfalso; exact (N1 _ _ Hin)|].
    simpl in Hin.
    repeat (destruct Hin as [Hin|Hin]; [discriminate Hin|]).
    apply in_app_or in Hin. destruct Hin as [Hin|Hin].
    - rewrite Forall_forall in Fa. exact (Fa _ Hin k a eq_refl).
    - simpl in Hin.
      repeat (destruct Hin as [Hin|Hin]; [discriminate Hin|]).
      destruct Hin. }
  split; [|exact Tk].
  rewrite trainers_built_app, B1. simpl.
  rewrite trainers_built_app, Tb. simpl. apply app_nil_r.
Qed.

Lemma occurrences_rounds :
  forall (s : step) (k : nat) (t : list event),
    steps t = rounds k epoch_steps -> occurrences s t = k.
Proof.
  intros s k t H. unfold occurrences. rewrite H, filter_rounds, length_rounds.
  destruct s; simpl; lia.
Qed.

End CompletedRuns.

(** * The claims about the script *)

Section ScriptClaims.

(** C3: for every epoch count [num_train_epochs >= 0] and whatever the
    collaborators return, a run of the driver that runs to its end has
    constructed a trainer, run a training pass and run an evaluation
    pass exactly [num_train_epochs] times each, in that order epoch
    after epoch.  The metrics an evaluation returns are arbitrary here,
    so the count does not depend on them. *)
Theorem epoch_loop_runs_configured_count :
  forall (X V : Type) (C : Collaborators X V)
         (args : Seq2SeqTrainingArguments) (METRIC : Metric)
         (train_path test_path : Path) (source_lang target_lang : string)
         (size : option string) (w w' : World X),
    (0 <= num_train_epochs args)%Z ->
    train_torch_with C args METRIC train_path test_path source_lang
                     target_lang size w = (inr tt, w') ->
    Z.of_nat (occurrences Construct (events_since w w')) =
      num_train_epochs args /\
    Z.of_nat (occurrences TrainPass (events_since w w')) =
      num_train_epochs args /\
    Z.of_nat (occurrences EvaluatePass (events_since w w')) =
      num_train_epochs args /\
    filter is_trainer_step (steps (events_since w w')) =
      rounds (Z.to_nat (num_train_epochs args))
             [Construct; TrainPass; EvaluatePass].
Proof.
  intros X V C args METRIC train_path test_path source_lang target_lang size
         w w' Hn H.
  destruct (completed_run _ _ C _ _ _ _ _ _ _ _ _ _ H)
    as [train [test [tok [ckpt [ev [dc [m [w1 [t0
          [_ [_ [St _]]]]]]]]]]]].
  repeat split.
  - rewrite (occurrences_rounds _ _ _ St). lia.
  - rewrite (occurrences_rounds _ _ _ St). lia.
  - rewrite (occurrences_rounds _ _ _ St). lia.
  - rewrite St, filter_rounds. reflexivity.
Qed.

Lemma epoch_loop_runs_configured_count_witness :
  let run := train_torch_with (mock None sample_metrics) (with_epochs 3)
               (MetricRef 0) train_path test_path "en" "fr" default_size
               initial_world in
  Z.of_nat (occurrences Construct (events_since initial_world (snd run))) = 3%Z /\
  Z.of_nat (occurrences TrainPass (events_since initial_world (snd run))) = 3%Z /\
  Z.of_nat (occurrences EvaluatePass (events_since initial_world (snd run))) = 3%Z /\
  filter is_trainer_step (steps (events_since initial_world (snd run))) =
    rounds 3 [Construct; TrainPass; EvaluatePass].
Proof.
  intro run.
  apply (epoch_loop_runs_configured_count nat Z (mock None sample_metrics)
           (with_epochs 3) (MetricRef 0) train_path test_path "en" "fr"
           default_size initial_world (snd run)).
  - simpl. lia.
  - vm_compute. reflexivity.
Defined.

(** C7, as stated, fails.  In a run of two epochs the first advance of
    the task comes before any evaluation pass and before any metrics
    panel; and when the evaluation of the first epoch raises, the task
    stands at 1 although no epoch ran to its end. *)
Lemma advance_precedes_evaluation :
  (exists before after : list event,
      trace (snd (sample_run None)) =
        before ++ EvAdvance 0 1 :: after /\
      occurrences Advance before = 0 /\
      occurrences TrainPass before = 1 /\
      occurrences EvaluatePass before = 0 /\
      completed_epochs before = 0 /\
      occurrences EvaluatePass after = 2 /\
      completed_epochs after = 2) /\
  (let r := sample_run (Some 10) in
   fst r = inl (ExternalError "scripted failure") /\
   tasks (snd r) =
     [{| description := "[cyan]Training..."; total := 2; completed := 1 |}] /\
   completed_epochs (trace (snd r)) = 0 /\
   In (EvCall (CallTrainerEvaluate (TrainerRef 8))
         (Some (ExternalError "scripted failure"))) (trace (snd r))).
Proof.
  split.
  - exists (firstn 13 (trace (snd (sample_run None)))),
           (skipn 14 (trace (snd (sample_run None)))).
    vm_compute. repeat split.
  - vm_compute. repeat split. do 14 right. left. reflexivity.
Qed.

(** C7, amended: in every run that runs to its end the task is advanced
    once per epoch, by one, right after the training pass of the epoch
    and before its evaluation pass and its metrics panel; the task ends
    at [num_train_epochs] out of [num_train_epochs]; the last thing
    printed is the success message, after the display was stopped; and
    the driver returns nothing but [None]. *)
Theorem progress_advances_after_training_pass :
  forall (X V : Type) (C : Collaborators X V)
         (args : Seq2SeqTrainingArguments) (METRIC : Metric)
         (train_path test_path : Path) (source_lang target_lang : string)
         (size : option string) (w w' : World X) (result : unit),
    (0 <= num_train_epochs args)%Z ->
    train_torch_with C args METRIC train_path test_path source_lang
                     target_lang size w = (inr result, w') ->
    result = tt /\
    steps (events_since w w') =
      rounds (Z.to_nat (num_train_epochs args))
             [Construct; TrainPass; Advance; EvaluatePass; Render] /\
    Z.of_nat (occurrences Advance (events_since w w')) = num_train_epochs args /\
    (forall k a, In (EvAdvance k a) (events_since w w') -> k = 0 /\ a = 1%Z) /\
    advanced 0 (events_since w w') = num_train_epochs args /\
    tasks w' = [{| description := "[cyan]Training...";
                   total := num_train_epochs args;
                   completed := num_train_epochs args |}] /\
    exists t0 : list event,
      events_since w w' =
        t0 ++ [EvProgressStop;
               EvConsolePrint (RText "[green]Training complete![/green]")].
Proof.
  intros X V C args METRIC train_path test_path source_lang target_lang size
         w w' result Hn H.
  destruct (completed_run _ _ C _ _ _ _ _ _ _ _ _ _ H)
    as [train [test [tok [ckpt [ev [dc [m [w1 [t0
          [_ [Hend [St [Ad [Fa [_ Tk]]]]]]]]]]]]]]].
  split; [now destruct result|].
  split; [exact St|].
  split; [rewrite (occurrences_rounds _ _ _ St); lia|].
  split; [exact Fa|].
  split; [rewrite Ad; lia|].
  split.
  - rewrite Tk. rewrite Z2Nat.id by exact Hn. reflexivity.
  - exists t0. exact Hend.
Qed.

Lemma progress_advances_after_training_pass_witness :
  let w' := snd (sample_run None) in
  tt = tt /\
  steps (events_since initial_world w') =
    rounds 2 [Construct; TrainPass; Advance; EvaluatePass; Render] /\
  Z.of_nat (occurrences Advance (events_since initial_world w')) = 2%Z /\
  (forall k a, In (EvAdvance k a) (events_since initial_world w') ->
               k = 0 /\ a = 1%Z) /\
  advanced 0 (events_since initial_world w') = 2%Z /\
  tasks w' = [{| description := "[cyan]Training..."; total := 2;
                 completed := 2 |}] /\
  exists t0 : list event,
    events_since initial_world w' =
      t0 ++ [EvProgressStop;
             EvConsolePrint (RText "[green]Training complete![/green]")].
Proof.
  intro w'.
  apply (progress_advances_after_training_pass nat Z
           (mock None sample_metrics) training_args (MetricRef 0)
           train_path test_path "en" "fr" default_size initial_world w' tt).
  - simpl. lia.
  - vm_compute. reflexivity.
Defined.

End ScriptClaims.

(** ** The metrics table *)

Section TableFacts.

Variables X V : Type.
Variable C : Collaborators X V.

Lemma fold_add_row :
  forall (kvs : list (string * V)) (t : Table),
    rows (fold_left
            (fun t '(metric_name, metric_value) =>
               add_row t [metric_name; str C metric_value]) kvs t) =
    rows t ++ map (row_of C) kvs.
Proof.
  induction kvs as [|[k v] kvs IH]; intro t; simpl.
  - now rewrite app_nil_r.
  - rewrite IH. simpl. now rewrite <- app_assoc.
Qed.

Lemma metrics_table_rows :
  forall metrics : dict V,
    rows (metrics_table_of C metrics) = map (row_of C) (items metrics).
Proof.
  intro metrics. unfold metrics_table_of. now rewrite fold_add_row.
Qed.

Lemma absent_key_filter :
  forall (k : string) (kvs : list (string * V)),
    existsb (String.eqb k) (map fst kvs) = false ->
    filter (fun kv => String.eqb (fst kv) k) kvs = [].
Proof.
  intros k. induction kvs as [|[k0 v0] kvs IH]; simpl; intro H.
  - reflexivity.
  - apply orb_false_iff in H. destruct H as [H1 H2].
    rewrite String.eqb_sym, H1. apply IH, H2.
Qed.

Lemma unique_key_filter :
  forall (kvs : list (string * V)) (k : string) (v : V),
    keys_unique kvs = true ->
    In (k, v) kvs ->
    filter (fun kv => String.eqb (fst kv) k) kvs = [(k, v)].
Proof.
  induction kvs as [|[k0 v0] kvs IH]; intros k v U Hin; simpl in *.
  - destruct Hin.
  - apply andb_true_iff in U. destruct U as [U1 U2].
    apply negb_true_iff in U1.
    destruct Hin as [Hin|Hin].
    + inversion Hin; subst k0 v0. rewrite String.eqb_refl.
      now rewrite (absent_key_filter _ _ U1).
    + destruct (String.eqb k0 k) eqn:E.
      * apply String.eqb_eq in E. subst k0. exfalso.
        assert (Hex : existsb (String.eqb k) (map fst kvs) = true).
        { apply existsb_exists. exists k. split.
          - apply in_map_iff. exists (k, v). split; [reflexivity | exact Hin].
          - apply String.eqb_refl. }
        congruence.
      * apply IH; assumption.
Qed.

Lemma rows_named_map :
  forall (name : string) (kvs : list (string * V)),
    filter (fun row => match row with
                       | cell :: _ => String.eqb cell name
                       | [] => false
                       end) (map (row_of C) kvs) =
    map (row_of C) (filter (fun kv => String.eqb (fst kv) name) kvs).
Proof.
  intros name. induction kvs as [|[k v] kvs IH]; simpl.
  - reflexivity.
  - destruct (String.eqb k name); simpl; now rewrite IH.
Qed.

End TableFacts.

(** * The claims about setup, the metrics table and the entry point *)

Section SetupClaims.

(** A collaborator call that raises is recorded as failed and raises in
    the script as well. *)
Lemma invoke_inl :
  forall (X A : Type) (c : call) (op : SE X A) (w : World X) (e : exn) (x' : X),
    op (ext w) = (inl e, x') ->
    invoke c op w =
    (inl e, mkWorld (heap w) x' (tasks w) (trace w ++ [EvCall c (Some e)])).
Proof.
  intros X A c op w e x' H. unfold invoke. now rewrite H.
Qed.

(** C4: whenever a collaborator call made by [setup] raises, [setup]
    itself raises that exception: it returns no tuple, and the driver
    that called it stops there with the same exception. *)
Theorem setup_failure_returns_nothing :
  forall (X V : Type) (C : Collaborators X V) (METRIC : Metric)
         (train_path test_path : Path) (source_lang target_lang : string)
         (size : option string) (w : World X) (c : call) (e : exn),
    In (EvCall c (Some e))
       (events_since w
          (snd (setup C METRIC train_path test_path source_lang target_lang
                      size w))) ->
    fst (setup C METRIC train_path test_path source_lang target_lang size w) =
      inl e /\
    (forall r : SetupResult,
        fst (setup C METRIC train_path test_path source_lang target_lang size w)
        <> inr r) /\
    forall args : Seq2SeqTrainingArguments,
      train_torch_with C args METRIC train_path test_path source_lang
                       target_lang size w =
      (inl e,
       snd (setup C METRIC train_path test_path source_lang target_lang size w)).
Proof.
  intros X V C METRIC train_path test_path source_lang target_lang size w c e Hin.
  assert (F : fst (setup C METRIC train_path test_path source_lang target_lang
                         size w) = inl e).
  { apply (logged_failure _ _ w c e); [apply setup_logged | exact Hin]. }
  split; [exact F|]. split.
  - intros r Hr. rewrite F in Hr. discriminate Hr.
  - intro args. unfold train_torch_with. apply bind_inl.
    destruct (setup C METRIC train_path test_path source_lang target_lang
                    size w) as [r w1].
    simpl in F. subst r. reflexivity.
Qed.

Lemma setup_failure_returns_nothing_witness :
  let C := mock (Some 1) sample_metrics in
  let e := ExternalError "scripted failure" in
  fst (setup C (MetricRef 0) train_path test_path "en" "fr" default_size
             initial_world) = inl e /\
  (forall r : SetupResult,
      fst (setup C (MetricRef 0) train_path test_path "en" "fr" default_size
                 initial_world) <> inr r) /\
  forall args : Seq2SeqTrainingArguments,
    train_torch_with C args (MetricRef 0) train_path test_path "en" "fr"
                     default_size initial_world =
    (inl e,
     snd (setup C (MetricRef 0) train_path test_path "en" "fr" default_size
                initial_world)).
Proof.
  intros C e.
  apply (setup_failure_returns_nothing nat Z C (MetricRef 0) train_path
           test_path "en" "fr" default_size initial_world
           (CallPreprocess (PreprocessorRef 0) train_path test_path) e).
  vm_compute. right. left. reflexivity.
Defined.

(** The store after two collections and their two wrappers were added. *)
Lemma wrappers_in_store :
  forall (h : Heap) (train_enc test_enc : BatchEncoding),
    let n := List.length (instances h) in
    let k := List.length (encoding_objs h) in
    let h' := mkHeap (encoding_objs h ++ [train_enc; test_enc])
                     (instances h ++
                      [Instance (Some (EncRef k));
                       Instance (Some (EncRef (S k)))]) in
    instance_at h' (DsRef n) = Some (Instance (Some (EncRef k))) /\
    encoding_at h' (EncRef k) = Some train_enc /\
    instance_at h' (DsRef (S n)) = Some (Instance (Some (EncRef (S k)))) /\
    encoding_at h' (EncRef (S k)) = Some test_enc.
Proof.
  intros h train_enc test_enc n k h'.
  unfold instance_at, encoding_at, h'.
  cbn [instances ds_addr encoding_objs enc_addr].
  repeat split.
  - rewrite nth_error_app2 by (unfold n; lia).
    unfold n. now rewrite Nat.sub_diag.
  - rewrite nth_error_app2 by (unfold k; lia).
    unfold k. now rewrite Nat.sub_diag.
  - rewrite nth_error_app2 by (unfold n; lia).
    unfold n.
    replace (S (List.length (instances h)) - List.length (instances h))
      with 1 by lia.
    reflexivity.
  - rewrite nth_error_app2 by (unfold k; lia).
    unfold k.
    replace (S (List.length (encoding_objs h)) - List.length (encoding_objs h))
      with 1 by lia.
    reflexivity.
Qed.

(** C9: the tuple a successful [setup] returns is, in order: the wrapper
    of the train collection, the wrapper of the test collection (the
    first and the second collection that [preprocess] returned, held by
    two different wrappers), the tokenizer that [get_tokenizer]
    returned, the checkpoint string that [get_checkpoint] returned, the
    evaluator that [Evaluate] built, the collator that
    [DataCollatorForSeq2Seq] built and the model that [from_pretrained]
    loaded.  So the checkpoint string is at position 3 and the
    evaluator at position 4; the return annotation lists these two the
    other way round and agrees everywhere else; and the driver unpacks
    in the order of the tuple: every trainer of a run that runs to its
    end was built from the model, the wrappers, the tokenizer, the
    collator and the evaluator of these positions. *)
Theorem setup_result_order :
  forall (X V : Type) (C : Collaborators X V) (METRIC : Metric)
         (train_path test_path : Path) (source_lang target_lang : string)
         (size : option string) (w w1 : World X) (r : SetupResult),
    setup C METRIC train_path test_path source_lang target_lang size w =
      (inr r, w1) ->
    exists (p : Preprocessor) (train_enc test_enc : BatchEncoding)
           (e_train e_test : enc_ref)
           (train_dataset test_dataset : ds_ref) (tokenizer : T5Tokenizer)
           (checkpoint : string) (evaluate : Evaluate) (pad : option Z)
           (data_collator : DataCollatorForSeq2Seq)
           (model : T5ForConditionalGeneration)
           (x1 x2 x3 x4 x5 x6 x7 x8 : X),
      Preprocessor_init C "t5" size source_lang target_lang (ext w) =
        (inr p, x1) /\
      preprocess C p train_path test_path x1 =
        (inr (train_enc, test_enc), x2) /\
      get_tokenizer C p x2 = (inr tokenizer, x3) /\
      get_checkpoint C p x3 = (inr checkpoint, x4) /\
      Evaluate_init C tokenizer METRIC x4 = (inr evaluate, x5) /\
      pad_token_id C tokenizer x5 = (inr pad, x6) /\
      DataCollatorForSeq2Seq_init C
        {| dc_tokenizer := tokenizer; dc_model := checkpoint;
           dc_padding := true; dc_label_pad_token_id := pad |} x6 =
        (inr data_collator, x7) /\
      from_pretrained C checkpoint x7 = (inr model, x8) /\
      r = (train_dataset, test_dataset, tokenizer, checkpoint, evaluate,
           data_collator, model) /\
      components r =
        [VDataset train_dataset; VDataset test_dataset; VTokenizer tokenizer;
         VStr checkpoint; VEvaluate evaluate; VCollator data_collator;
         VModel model] /\
      train_dataset <> test_dataset /\
      instance_at (heap w1) train_dataset = Some (Instance (Some e_train)) /\
      encoding_at (heap w1) e_train = Some train_enc /\
      instance_at (heap w1) test_dataset = Some (Instance (Some e_test)) /\
      encoding_at (heap w1) e_test = Some test_enc /\
      nth_error (components r) 3 = Some (VStr checkpoint) /\
      nth_error (components r) 4 = Some (VEvaluate evaluate) /\
      nth_error setup_annotation 3 = Some ClsEvaluate /\
      nth_error setup_annotation 4 = Some ClsStr /\
      (forall i : nat,
          nth_error (map class_of (components r)) i <>
          nth_error setup_annotation i <->
          i = 3 \/ i = 4) /\
      forall (args : Seq2SeqTrainingArguments) (w' : World X),
        train_torch_with C args METRIC train_path test_path source_lang
                         target_lang size w = (inr tt, w') ->
        trainers_built (events_since w w') =
          repeat {| tr_model := model;
                    tr_args := args;
                    tr_train_dataset := train_dataset;
                    tr_eval_dataset := test_dataset;
                    tr_tokenizer := tokenizer;
                    tr_data_collator := data_collator;
                    tr_compute_metrics := evaluate |}
                 (Z.to_nat (num_train_epochs args)).
Proof.
  intros X V C METRIC train_path test_path source_lang target_lang size w w1 r H.
  destruct (setup_inr _ _ C _ _ _ _ _ _ _ _ _ H)
    as [p [train_enc [test_enc [tok [ckpt [ev [pad [dc [m
          [x1 [x2 [x3 [x4 [x5 [x6 [x7 [x8
            [E1 [E2 [E3 [E4 [E5 [E6 [E7 [E8 [R W]]]]]]]]]]]]]]]]]]]]]]]]]].
  destruct (wrappers_in_store (heap w) train_enc test_enc)
    as [I1 [N1 [I2 N2]]].
  exists p, train_enc, test_enc,
         (EncRef (List.length (encoding_objs (heap w)))),
         (EncRef (S (List.length (encoding_objs (heap w))))),
         (DsRef (List.length (instances (heap w)))),
         (DsRef (S (List.length (instances (heap w))))),
         tok, ckpt, ev, pad, dc, m, x1, x2, x3, x4, x5, x6, x7, x8.
  repeat (split; [assumption|]).
  split; [rewrite R; reflexivity|].
  split; [intro E; inversion E; lia|].
  rewrite W. cbn [heap].
  repeat (split; [assumption|]).
  rewrite R.
  split; [reflexivity|]. split; [reflexivity|].
  split; [reflexivity|]. split; [reflexivity|]. split.
  - intro i. simpl. unfold setup_annotation. split.
    + intro D.
      do 7 (destruct i as [|i]; [simpl in D; try (exfalso; apply D; reflexivity);
                                 auto|]).
      exfalso. apply D. simpl. destruct i; reflexivity.
    + intros [E|E]; subst i; simpl; discriminate.
  - intros args w' Hrun.
    destruct (completed_run _ _ C _ _ _ _ _ _ _ _ _ _ Hrun)
      as [train' [test' [tok' [ckpt' [ev' [dc' [m' [w1' [t0
            [Hs [_ [_ [_ [_ [Tb _]]]]]]]]]]]]]]].
    rewrite H, R in Hs. inversion Hs; subst. exact Tb.
Qed.

Lemma setup_result_order_witness :
  let C := mock None sample_metrics in
  let run := setup C (MetricRef 0) train_path test_path "en" "fr" default_size
                   initial_world in
  let r := (DsRef 0, DsRef 1, TokenizerRef 2, "t5-small", EvaluateRef 4,
            CollatorRef 6, ModelRef 7) in
  exists (p : Preprocessor) (train_enc test_enc : BatchEncoding)
         (e_train e_test : enc_ref)
         (train_dataset test_dataset : ds_ref) (tokenizer : T5Tokenizer)
         (checkpoint : string) (evaluate : Evaluate) (pad : option Z)
         (data_collator : DataCollatorForSeq2Seq)
         (model : T5ForConditionalGeneration)
         (x1 x2 x3 x4 x5 x6 x7 x8 : nat),
    Preprocessor_init C "t5" default_size "en" "fr" (ext initial_world) =
      (inr p, x1) /\
    preprocess C p train_path test_path x1 =
      (inr (train_enc, test_enc), x2) /\
    get_tokenizer C p x2 = (inr tokenizer, x3) /\
    get_checkpoint C p x3 = (inr checkpoint, x4) /\
    Evaluate_init C tokenizer (MetricRef 0) x4 = (inr evaluate, x5) /\
    pad_token_id C tokenizer x5 = (inr pad, x6) /\
    DataCollatorForSeq2Seq_init C
      {| dc_tokenizer := tokenizer; dc_model := checkpoint;
         dc_padding := true; dc_label_pad_token_id := pad |} x6 =
      (inr data_collator, x7) /\
    from_pretrained C checkpoint x7 = (inr model, x8) /\
    r = (train_dataset, test_dataset, tokenizer, checkpoint, evaluate,
         data_collator, model) /\
    components r =
      [VDataset train_dataset; VDataset test_dataset; VTokenizer tokenizer;
       VStr checkpoint; VEvaluate evaluate; VCollator data_collator;
       VModel model] /\
    train_dataset <> test_dataset /\
    instance_at (heap (snd run)) train_dataset =
      Some (Instance (Some e_train)) /\
    encoding_at (heap (snd run)) e_train = Some train_enc /\
    instance_at (heap (snd run)) test_dataset =
      Some (Instance (Some e_test)) /\
    encoding_at (heap (snd run)) e_test = Some test_enc /\
    nth_error (components r) 3 = Some (VStr checkpoint) /\
    nth_error (components r) 4 = Some (VEvaluate evaluate) /\
    nth_error setup_annotation 3 = Some ClsEvaluate /\
    nth_error setup_annotation 4 = Some ClsStr /\
    (forall i : nat,
        nth_error (map class_of (components r)) i <>
        nth_error setup_annotation i <->
        i = 3 \/ i = 4) /\
    forall (args : Seq2SeqTrainingArguments) (w' : World nat),
      train_torch_with C args (MetricRef 0) train_path test_path "en" "fr"
                       default_size initial_world = (inr tt, w') ->
      trainers_built (events_since initial_world w') =
        repeat {| tr_model := model;
                  tr_args := args;
                  tr_train_dataset := train_dataset;
                  tr_eval_dataset := test_dataset;
                  tr_tokenizer := tokenizer;
                  tr_data_collator := data_collator;
                  tr_compute_metrics := evaluate |}
               (Z.to_nat (num_train_epochs args)).
Proof.
  intros C run r.
  apply (setup_result_order nat Z C (MetricRef 0) train_path test_path
           "en" "fr" default_size initial_world (snd run) r).
  vm_compute. reflexivity.
Defined.

End SetupClaims.

Section OutputClaims.

(** C5: in an epoch that runs to its end, exactly one panel is printed;
    its table was built from the metrics that the evaluation of that
    epoch returned, has one row per metric in the order of the mapping,
    and for every metric of the mapping the rows that start with its
    name are exactly one: the name followed by the string rendering of
    its value. *)
Theorem metrics_table_has_one_row_per_metric :
  forall (X V : Type) (C : Collaborators X V)
         (args : Seq2SeqTrainingArguments) (task : nat)
         (train_dataset test_dataset : ds_ref) (tokenizer : T5Tokenizer)
         (evaluate : Evaluate) (data_collator : DataCollatorForSeq2Seq)
         (model : T5ForConditionalGeneration) (epoch : Z) (w w' : World X),
    epoch_body C args task train_dataset test_dataset tokenizer evaluate
               data_collator model epoch w = (inr tt, w') ->
    exists (trainer : Seq2SeqTrainer) (x x' : X) (metrics : dict V)
           (table : Table),
      trainer_evaluate C trainer x = (inr metrics, x') /\
      panels (events_since w w') =
        [{| panel_body := table; panel_title := "Evaluation Metrics";
            expand := false |}] /\
      table = metrics_table_of C metrics /\
      rows table = map (row_of C) (items metrics) /\
      List.length (rows table) = List.length (items metrics) /\
      forall (name : string) (value : V),
        In (name, value) (items metrics) ->
        rows_named name table = [[name; str C value]].
Proof.
  intros X V C args task train_dataset test_dataset tokenizer evaluate
         data_collator model epoch w w' H.
  destruct (epoch_body_inr _ _ C _ _ _ _ _ _ _ _ _ _ _ _ H)
    as [trainer [metrics [t0 [x1 [x2 [x3 [_ [_ [E3 [_ W]]]]]]]]]].
  exists trainer, x2, x3, metrics, (metrics_table_of C metrics).
  split; [exact E3|]. split.
  - rewrite (events_since_app w w' _ (f_equal (@trace X) W)). reflexivity.
  - split; [reflexivity|]. split; [apply metrics_table_rows|]. split.
    + rewrite metrics_table_rows. apply length_map.
    + intros name value Hin. unfold rows_named.
      rewrite metrics_table_rows, rows_named_map.
      rewrite (unique_key_filter _ _ _ _ (items_unique metrics) Hin).
      reflexivity.
Qed.

Lemma metrics_table_has_one_row_per_metric_witness :
  let C := mock None sample_metrics in
  let w' := snd (epoch_body C training_args 0 (DsRef 0) (DsRef 1)
                   (TokenizerRef 2) (EvaluateRef 4) (CollatorRef 6)
                   (ModelRef 7) 0%Z epoch_world) in
  exists (trainer : Seq2SeqTrainer) (x x' : nat) (metrics : dict Z)
         (table : Table),
    trainer_evaluate C trainer x = (inr metrics, x') /\
    panels (events_since epoch_world w') =
      [{| panel_body := table; panel_title := "Evaluation Metrics";
          expand := false |}] /\
    table = metrics_table_of C metrics /\
    rows table = map (row_of C) (items metrics) /\
    List.length (rows table) = List.length (items metrics) /\
    forall (name : string) (value : Z),
      In (name, value) (items metrics) ->
      rows_named name table = [[name; str C value]].
Proof.
  intros C w'.
  apply (metrics_table_has_one_row_per_metric nat Z C training_args 0
           (DsRef 0) (DsRef 1) (TokenizerRef 2) (EvaluateRef 4)
           (CollatorRef 6) (ModelRef 7) 0%Z epoch_world w').
  vm_compute. reflexivity.
Defined.

(** C6: run under the name [__main__], the module, once the metric is
    loaded, does what [train_torch] does on the paths
    [dugong/t5_train.json] and [dugong/t5_test.json], whose file names
    are [t5_train.json] and [t5_test.json], with source language [en],
    target language [fr] and the default size; the command line plays no
    part in it; under any other name [train_torch] is not called. *)
Theorem main_runs_train_torch_on_fixed_arguments :
  forall (X V : Type) (C : Collaborators X V) (argv : list string)
         (w : World X) (METRIC : Metric) (x1 : X),
    evaluate_load C "sacrebleu" (ext w) = (inr METRIC, x1) ->
    let loaded :=
        mkWorld (heap w) x1 (tasks w)
                (trace w ++ [EvCall (CallFilterWarnings "ignore") None;
                             EvCall CallSetVerbosityError None;
                             EvCall (CallEvaluateLoad "sacrebleu") None]) in
    module_body C "__main__" argv w =
      train_torch C METRIC {| path_text := "dugong/t5_train.json" |}
                  {| path_text := "dugong/t5_test.json" |} "en" "fr"
                  (Some "small") loaded /\
    path_name {| path_text := "dugong/t5_train.json" |} = "t5_train.json" /\
    path_name {| path_text := "dugong/t5_test.json" |} = "t5_test.json" /\
    (forall argv' : list string,
        module_body C "__main__" argv' w = module_body C "__main__" argv w) /\
    (forall name : string,
        name <> "__main__" -> module_body C name argv w = (inr tt, loaded)).
Proof.
  intros X V C argv w METRIC x1 H loaded.
  assert (Pre : forall (name : string) (args : list string),
             module_body C name args w =
             (if String.eqb name "__main__"
              then train_torch C METRIC {| path_text := "dugong/t5_train.json" |}
                     {| path_text := "dugong/t5_test.json" |} "en" "fr"
                     default_size
              else ret tt) loaded).
  { intros name args. unfold module_body, bind, invoke, log. simpl.
    rewrite H. simpl. unfold loaded.
    repeat rewrite <- app_assoc. reflexivity. }
  split; [exact (Pre "__main__" argv)|].
  split; [reflexivity|]. split; [reflexivity|]. split.
  - intro argv'. now rewrite !Pre.
  - intros name Hname. rewrite Pre.
    destruct (String.eqb name "__main__") eqn:E.
    + apply String.eqb_eq in E. contradiction.
    + reflexivity.
Qed.

Lemma main_runs_train_torch_on_fixed_arguments_witness :
  let C := mock None sample_metrics in
  let loaded :=
      mkWorld empty_heap 1 []
              [EvCall (CallFilterWarnings "ignore") None;
               EvCall CallSetVerbosityError None;
               EvCall (CallEvaluateLoad "sacrebleu") None] in
  module_body C "__main__" ["t5.py"; "--epochs"; "5"] initial_world =
    train_torch C (MetricRef 0) {| path_text := "dugong/t5_train.json" |}
                {| path_text := "dugong/t5_test.json" |} "en" "fr"
                (Some "small") loaded /\
  path_name {| path_text := "dugong/t5_train.json" |} = "t5_train.json" /\
  path_name {| path_text := "dugong/t5_test.json" |} = "t5_test.json" /\
  (forall argv' : list string,
      module_body C "__main__" argv' initial_world =
      module_body C "__main__" ["t5.py"; "--epochs"; "5"] initial_world) /\
  (forall name : string,
      name <> "__main__" ->
      module_body C name ["t5.py"; "--epochs"; "5"] initial_world =
      (inr tt, loaded)).
Proof.
  intros C loaded.
  apply (main_runs_train_torch_on_fixed_arguments nat Z C
           ["t5.py"; "--epochs"; "5"] initial_world (MetricRef 0) 1).
  reflexivity.
Defined.

End OutputClaims.

(** * Further properties of the dataset wrapper *)

Section DatasetBounds.

Lemma list_getitem_negative :
  forall (A : Type) (l : list A) (i : Z),
    (- len l <= i < 0)%Z ->
    list_getitem l i = list_getitem l (i + len l).
Proof.
  intros A l i [H0 H1]. unfold len in *. unfold list_getitem.
  replace (i <? 0)%Z with true by (symmetry; apply Z.ltb_lt; lia).
  replace (i + Z.of_nat (List.length l) <? 0)%Z with false
    by (symmetry; apply Z.ltb_ge; lia).
  reflexivity.
Qed.

Lemma list_getitem_before_start :
  forall (A : Type) (l : list A) (i : Z),
    (i < - len l)%Z ->
    list_getitem l i = inl (IndexError "list index out of range").
Proof.
  intros A l i H. unfold len in H. unfold list_getitem.
  replace (i <? 0)%Z with true by (symmetry; apply Z.ltb_lt; lia).
  replace (0 <=? i + Z.of_nat (List.length l))%Z with false
    by (symmetry; apply Z.leb_gt; lia).
  reflexivity.
Qed.

Lemma nth_error_last_entry :
  forall (A : Type) (l : list A) (d : A),
    l <> [] -> nth_error l (List.length l - 1) = Some (last l d).
Proof.
  induction l as [|a l IH]; intros d Hl; [contradiction|].
  destruct l as [|b l]; [reflexivity|].
  assert (Hn : b :: l <> []) by discriminate.
  specialize (IH d Hn). simpl in IH. rewrite Nat.sub_0_r in IH.
  cbn [List.length last]. simpl. exact IH.
Qed.

Lemma list_getitem_minus_one :
  forall (A : Type) (l : list A) (d : A),
    l <> [] -> list_getitem l (-1) = inr (last l d).
Proof.
  intros A l d Hl.
  assert (Hpos : 0 < List.length l) by (destruct l; [contradiction | simpl; lia]).
  unfold list_getitem.
  change (-1 <? 0)%Z with true. cbv iota.
  replace (0 <=? -1 + Z.of_nat (List.length l))%Z with true
    by (symmetry; apply Z.leb_le; lia).
  replace (-1 + Z.of_nat (List.length l) <? Z.of_nat (List.length l))%Z
    with true by (symmetry; apply Z.ltb_lt; lia).
  cbn [andb].
  replace (Z.to_nat (-1 + Z.of_nat (List.length l))) with (List.length l - 1)
    by lia.
  now rewrite (nth_error_last_entry _ l d Hl).
Qed.

(** The lookup, computed from the three list lookups. *)
Lemma getitem_run :
  forall (h : Heap) (self : ds_ref) (e : enc_ref) (enc : BatchEncoding) (i : Z),
    instance_at h self = Some (Instance (Some e)) ->
    encoding_at h e = Some enc ->
    fst (BatchEncodingDataset.__getitem__ self i h) =
    match list_getitem (input_ids enc) i with
    | inl ex => inl ex
    | inr a =>
        match list_getitem (attention_mask enc) i with
        | inl ex => inl ex
        | inr b =>
            match list_getitem (labels enc) i with
            | inl ex => inl ex
            | inr c => inr (Dict (item_of a b c) eq_refl)
            end
        end
    end.
Proof.
  intros h self e enc i Hs He.
  unfold BatchEncodingDataset.__getitem__, bind.
  rewrite (tensor_at_run input_ids _ _ _ _ i Hs He).
  destruct (list_getitem (input_ids enc) i) as [ex|a]; [reflexivity|].
  rewrite (tensor_at_run attention_mask _ _ _ _ i Hs He).
  destruct (list_getitem (attention_mask enc) i) as [ex|b]; [reflexivity|].
  rewrite (tensor_at_run labels _ _ _ _ i Hs He).
  destruct (list_getitem (labels enc) i) as [ex|c]; reflexivity.
Qed.

(** X1: on a collection whose three arrays have [N] entries, and for an
    index that fits a machine word, the lookup returns exactly for the
    indices [-N <= i < N]; every other such index raises [IndexError];
    in particular every such lookup in an empty collection raises. *)
Theorem lookup_returns_exactly_in_range :
  forall (h : Heap) (self : ds_ref) (e : enc_ref) (enc : BatchEncoding)
         (N : nat) (i : Z),
    instance_at h self = Some (Instance (Some e)) ->
    encoding_at h e = Some enc ->
    List.length (input_ids enc) = N ->
    List.length (attention_mask enc) = N ->
    List.length (labels enc) = N ->
    (- 2 ^ 63 <= i < 2 ^ 63)%Z ->
    ((- Z.of_nat N <= i < Z.of_nat N)%Z ->
     exists item : dict Tensor,
       BatchEncodingDataset.__getitem__ self i h = (inr item, h)) /\
    ((i < - Z.of_nat N \/ Z.of_nat N <= i)%Z ->
     BatchEncodingDataset.__getitem__ self i h =
     (inl (IndexError "list index out of range"), h)) /\
    (N = 0 ->
     BatchEncodingDataset.__getitem__ self i h =
     (inl (IndexError "list index out of range"), h)).
Proof.
  intros h self e enc N i Hs He Hi Ha Hl _.
  pose proof (getitem_run h self e enc i Hs He) as R.
  pose proof (getitem_frame self i h) as F.
  assert (Out : (i < - Z.of_nat N \/ Z.of_nat N <= i)%Z ->
                BatchEncodingDataset.__getitem__ self i h =
                (inl (IndexError "list index out of range"), h)).
  { intro Hout.
    assert (G : list_getitem (input_ids enc) i =
                inl (IndexError "list index out of range")).
    { destruct Hout as [Hout|Hout].
      - apply list_getitem_before_start. unfold len. lia.
      - apply list_getitem_past_end. unfold len. lia. }
    rewrite G in R.
    destruct (BatchEncodingDataset.__getitem__ self i h) as [r h'].
    simpl in *. now subst. }
  split; [|split].
  - intro Hin.
    assert (G : forall l : list (list Z),
               List.length l = N -> exists a, list_getitem l i = inr a).
    { intros l Hlen. destruct (Z_lt_ge_dec i 0) as [Hneg|Hpos].
      - rewrite list_getitem_negative by (unfold len; lia).
        destruct (list_getitem_in_range _ l (i + len l)) as [a [_ G]];
          [unfold len; lia|]. now exists a.
      - destruct (list_getitem_in_range _ l i) as [a [_ G]];
          [unfold len; lia|]. now exists a. }
    destruct (G _ Hi) as [a Ga]. destruct (G _ Ha) as [b Gb].
    destruct (G _ Hl) as [c Gc].
    rewrite Ga, Gb, Gc in R.
    destruct (BatchEncodingDataset.__getitem__ self i h) as [r h'].
    simpl in *. subst. eexists. reflexivity.
  - exact Out.
  - intro HN. apply Out. lia.
Qed.

Lemma lookup_returns_exactly_in_range_witness :
  let h := mkHeap [aligned_sample] [Instance (Some (EncRef 0))] in
  (exists item : dict Tensor,
      BatchEncodingDataset.__getitem__ (DsRef 0) (-2) h = (inr item, h)) /\
  BatchEncodingDataset.__getitem__ (DsRef 0) 2 h =
  (inl (IndexError "list index out of range"), h).
Proof.
  intro h.
  split.
  - destruct (lookup_returns_exactly_in_range h (DsRef 0) (EncRef 0)
                aligned_sample 2 (-2) eq_refl eq_refl eq_refl eq_refl eq_refl)
      as [In _].
    + split; [apply Z.leb_le | apply Z.ltb_lt]; reflexivity.
    + apply In. simpl. lia.
  - destruct (lookup_returns_exactly_in_range h (DsRef 0) (EncRef 0)
                aligned_sample 2 2 eq_refl eq_refl eq_refl eq_refl eq_refl)
      as [_ [Out _]].
    + split; [apply Z.leb_le | apply Z.ltb_lt]; reflexivity.
    + apply Out. simpl. lia.
Defined.

(** X2: on a collection whose three arrays have [N] entries a negative
    index [i >= -N] is the position [i + N]: both lookups return the
    same record. *)
Theorem negative_index_counts_from_the_end :
  forall (h : Heap) (self : ds_ref) (e : enc_ref) (enc : BatchEncoding)
         (N : nat) (i : Z),
    instance_at h self = Some (Instance (Some e)) ->
    encoding_at h e = Some enc ->
    List.length (input_ids enc) = N ->
    List.length (attention_mask enc) = N ->
    List.length (labels enc) = N ->
    (- Z.of_nat N <= i < 0)%Z ->
    BatchEncodingDataset.__getitem__ self i h =
    BatchEncodingDataset.__getitem__ self (i + Z.of_nat N) h.
Proof.
  intros h self e enc N i Hs He Hi Ha Hl Hr.
  pose proof (getitem_run h self e enc i Hs He) as R1.
  pose proof (getitem_run h self e enc (i + Z.of_nat N) Hs He) as R2.
  rewrite (list_getitem_negative _ (input_ids enc) i) in R1
    by (unfold len; lia).
  rewrite (list_getitem_negative _ (attention_mask enc) i) in R1
    by (unfold len; lia).
  rewrite (list_getitem_negative _ (labels enc) i) in R1
    by (unfold len; lia).
  unfold len in R1. rewrite Hi, Ha, Hl in R1. rewrite <- R2 in R1.
  pose proof (getitem_frame self i h) as F1.
  pose proof (getitem_frame self (i + Z.of_nat N) h) as F2.
  destruct (BatchEncodingDataset.__getitem__ self i h) as [r1 h1].
  destruct (BatchEncodingDataset.__getitem__ self (i + Z.of_nat N) h)
    as [r2 h2].
  simpl in *. now subst.
Qed.

Lemma negative_index_counts_from_the_end_witness :
  let h := mkHeap [aligned_sample] [Instance (Some (EncRef 0))] in
  BatchEncodingDataset.__getitem__ (DsRef 0) (-1) h =
  BatchEncodingDataset.__getitem__ (DsRef 0) (-1 + 2) h.
Proof.
  intro h.
  apply (negative_index_counts_from_the_end h (DsRef 0) (EncRef 0)
           aligned_sample 2 (-1) eq_refl eq_refl eq_refl eq_refl eq_refl).
  simpl. lia.
Defined.

(** X3: whatever the lengths of the three arrays, as long as none is
    empty the lookup at [-1] returns the last entry of each array; when
    the lengths differ these entries come from different positions and
    no error is raised. *)
Theorem lookup_at_minus_one_takes_each_last_entry :
  forall (h : Heap) (self : ds_ref) (e : enc_ref) (enc : BatchEncoding),
    instance_at h self = Some (Instance (Some e)) ->
    encoding_at h e = Some enc ->
    input_ids enc <> [] ->
    attention_mask enc <> [] ->
    labels enc <> [] ->
    exists item : dict Tensor,
      BatchEncodingDataset.__getitem__ self (-1) h = (inr item, h) /\
      items item =
        item_of (last (input_ids enc) []) (last (attention_mask enc) [])
                (last (labels enc) []).
Proof.
  intros h self e enc Hs He Hi Ha Hl.
  pose proof (getitem_run h self e enc (-1) Hs He) as R.
  rewrite (list_getitem_minus_one _ _ [] Hi) in R.
  rewrite (list_getitem_minus_one _ _ [] Ha) in R.
  rewrite (list_getitem_minus_one _ _ [] Hl) in R.
  pose proof (getitem_frame self (-1) h) as F.
  destruct (BatchEncodingDataset.__getitem__ self (-1) h) as [r h'].
  simpl in *. subst. eexists. split; reflexivity.
Qed.

Lemma lookup_at_minus_one_takes_each_last_entry_witness :
  let h := mkHeap [uneven_sample] [Instance (Some (EncRef 0))] in
  exists item : dict Tensor,
    BatchEncodingDataset.__getitem__ (DsRef 0) (-1) h = (inr item, h) /\
    items item = item_of [25; 1; 0]%Z [1; 1; 1]%Z [4; 1]%Z.
Proof.
  intro h.
  apply (lookup_at_minus_one_takes_each_last_entry h (DsRef 0) (EncRef 0)
           uneven_sample eq_refl eq_refl); discriminate.
Defined.

Lemma tensor_at_agrees :
  forall (field : BatchEncoding -> list (list Z)) (self : ds_ref) (i : Z)
         (h1 h2 : Heap),
    instance_at h1 self = instance_at h2 self ->
    (forall e : enc_ref, encoding_at h1 e = encoding_at h2 e) ->
    fst (BatchEncodingDataset.tensor_at field self i h1) =
    fst (BatchEncodingDataset.tensor_at field self i h2).
Proof.
  intros field self i h1 h2 Hs He.
  unfold BatchEncodingDataset.tensor_at, bind, getattr_encodings,
    getattr_array, lift_result, ret.
  rewrite Hs.
  destruct (instance_at h2 self) as [[[e|]]|]; simpl; try reflexivity.
  rewrite He.
  destruct (encoding_at h2 e) as [enc|]; simpl; try reflexivity.
  destruct (list_getitem (field enc) i); reflexivity.
Qed.

Lemma getitem_by_fields :
  forall (self : ds_ref) (i : Z) (h : Heap),
    fst (BatchEncodingDataset.__getitem__ self i h) =
    match fst (BatchEncodingDataset.tensor_at input_ids self i h) with
    | inl ex => inl ex
    | inr a =>
        match fst (BatchEncodingDataset.tensor_at attention_mask self i h) with
        | inl ex => inl ex
        | inr b =>
            match fst (BatchEncodingDataset.tensor_at labels self i h) with
            | inl ex => inl ex
            | inr c => inr (Dict [("input_ids", a); ("attention_mask", b);
                            ("labels", c)] eq_refl)
            end
        end
    end.
Proof.
  intros self i h. unfold BatchEncodingDataset.__getitem__, bind.
  pose proof (tensor_at_frame input_ids self i h) as F1.
  destruct (BatchEncodingDataset.tensor_at input_ids self i h) as [[ex|a] h1];
    simpl in *; subst; [reflexivity|].
  pose proof (tensor_at_frame attention_mask self i h) as F2.
  destruct (BatchEncodingDataset.tensor_at attention_mask self i h)
    as [[ex|b] h2]; simpl in *; subst; [reflexivity|].
  destruct (BatchEncodingDataset.tensor_at labels self i h) as [[ex|c] h3];
    reflexivity.
Qed.

(** X4: constructing a wrapper does not disturb the wrappers that exist:
    each of them returns the same length and the same record, or raises
    the same exception, as before; and the new wrapper is none of
    them. *)
Theorem construction_preserves_existing_wrappers :
  forall (h : Heap) (self : ds_ref) (inst : instance) (e : enc_ref),
    instance_at h self = Some inst ->
    fst (BatchEncodingDataset.new e h) <> inr self /\
    (forall i : Z,
        fst (BatchEncodingDataset.__getitem__ self i
               (snd (BatchEncodingDataset.new e h))) =
        fst (BatchEncodingDataset.__getitem__ self i h)) /\
    fst (BatchEncodingDataset.__len__ self (snd (BatchEncodingDataset.new e h))) =
    fst (BatchEncodingDataset.__len__ self h).
Proof.
  intros h self inst e Hs. rewrite new_run. simpl.
  assert (Hlt : ds_addr self < List.length (instances h)).
  { apply nth_error_Some. unfold instance_at in Hs. now rewrite Hs. }
  assert (Hi : instance_at
                 (mkHeap (encoding_objs h) (instances h ++ [Instance (Some e)]))
                 self = instance_at h self).
  { unfold instance_at. simpl. now rewrite nth_error_app1. }
  split; [|split].
  - intro E. inversion E as [E']. rewrite <- E' in Hlt. simpl in Hlt. lia.
  - intro i. rewrite !getitem_by_fields.
    rewrite (tensor_at_agrees input_ids self i _ h Hi (fun _ => eq_refl)).
    rewrite (tensor_at_agrees attention_mask self i _ h Hi (fun _ => eq_refl)).
    rewrite (tensor_at_agrees labels self i _ h Hi (fun _ => eq_refl)).
    reflexivity.
  - unfold BatchEncodingDataset.__len__, bind, getattr_encodings, getattr_array,
      ret.
    rewrite Hi.
    destruct (instance_at h self) as [[[e0|]]|]; simpl; try reflexivity.
    unfold encoding_at. simpl.
    destruct (nth_error (encoding_objs h) (enc_addr e0)); reflexivity.
Qed.

Lemma construction_preserves_existing_wrappers_witness :
  let h := mkHeap [aligned_sample; ragged_sample] [Instance (Some (EncRef 0))] in
  fst (BatchEncodingDataset.new (EncRef 1) h) <> inr (DsRef 0) /\
  (forall i : Z,
      fst (BatchEncodingDataset.__getitem__ (DsRef 0) i
             (snd (BatchEncodingDataset.new (EncRef 1) h))) =
      fst (BatchEncodingDataset.__getitem__ (DsRef 0) i h)) /\
  fst (BatchEncodingDataset.__len__ (DsRef 0)
         (snd (BatchEncodingDataset.new (EncRef 1) h))) =
  fst (BatchEncodingDataset.__len__ (DsRef 0) h).
Proof.
  intro h.
  apply (construction_preserves_existing_wrappers h (DsRef 0)
           (Instance (Some (EncRef 0))) (EncRef 1)).
  reflexivity.
Defined.

End DatasetBounds.

(** * Further properties of setup *)

Section CallsOnly.

Context {X : Type}.

Lemma calls_only_ret :
  forall (A : Type) (a : A), calls_only (@ret (World X) A a).
Proof.
  intros A a w. exists []. simpl.
  repeat split; [now rewrite app_nil_r | constructor].
Qed.

Lemma calls_only_invoke :
  forall (A : Type) (c : call) (op : SE X A), calls_only (invoke c op).
Proof.
  intros A c op w. unfold invoke.
  destruct (op (ext w)) as [r x']. simpl.
  exists [EvCall c (raised_of r)]. repeat split.
  constructor; [|constructor]. now exists c, (raised_of r).
Qed.

Lemma calls_only_on_heap :
  forall (A : Type) (op : SE Heap A), calls_only (@on_heap X A op).
Proof.
  intros A op w. unfold on_heap.
  destruct (op (heap w)) as [r h']. simpl.
  exists []. repeat split; [now rewrite app_nil_r | constructor].
Qed.

Lemma calls_only_bind :
  forall (A B : Type) (m : SE (World X) A) (k : A -> SE (World X) B),
    calls_only m -> (forall a : A, calls_only (k a)) -> calls_only (bind m k).
Proof.
  intros A B m k Hm Hk w. unfold bind.
  destruct (Hm w) as [t1 [T1 [Q1 K1]]].
  destruct (m w) as [[e|a] w1]; simpl in *.
  - exists t1. repeat split; assumption.
  - destruct (Hk a w1) as [t2 [T2 [Q2 K2]]].
    exists (t1 ++ t2). repeat split.
    + now rewrite T2, T1, app_assoc.
    + apply Forall_app. split; assumption.
    + now rewrite K2.
Qed.

End CallsOnly.

Section SetupMore.

Variables X V : Type.
Variable C : Collaborators X V.

Lemma setup_calls_only :
  forall (METRIC : Metric) (train_path test_path : Path)
         (source_lang target_lang : string) (size : option string),
    calls_only (setup C METRIC train_path test_path source_lang target_lang size).
Proof.
  intros. unfold setup.
  repeat first
    [ apply calls_only_invoke
    | apply calls_only_ret
    | apply calls_only_on_heap
    | apply calls_only_bind; [| intros ?]
    | match goal with |- calls_only (let (_, _) := ?p in _) => destruct p end ].
Qed.

(** X5: a [setup] that returns has made exactly eight collaborator
    calls, in the order of the source, each of which returned.  The
    checkpoint string of the result is the one that was handed to the
    data collator as its [model] argument and to [from_pretrained]; the
    collator was given [padding=True] and, as [label_pad_token_id], what
    the tokenizer's [pad_token_id] gave; the preprocessor was built for
    the model name [t5] with the given size and languages. *)
Theorem setup_calls_collaborators_in_source_order :
  forall (METRIC : Metric) (train_path test_path : Path)
         (source_lang target_lang : string) (size : option string)
         (w w' : World X) (r : SetupResult),
    setup C METRIC train_path test_path source_lang target_lang size w =
      (inr r, w') ->
    exists (p : Preprocessor) (train_dataset test_dataset : ds_ref)
           (tokenizer : T5Tokenizer) (checkpoint : string) (evaluate : Evaluate)
           (pad : option Z) (data_collator : DataCollatorForSeq2Seq)
           (model : T5ForConditionalGeneration),
      r = (train_dataset, test_dataset, tokenizer, checkpoint, evaluate,
           data_collator, model) /\
      (exists x x' : X, pad_token_id C tokenizer x = (inr pad, x')) /\
      (exists x x' : X, from_pretrained C checkpoint x = (inr model, x')) /\
      events_since w w' =
        [EvCall (CallPreprocessor "t5" size source_lang target_lang) None;
         EvCall (CallPreprocess p train_path test_path) None;
         EvCall (CallGetTokenizer p) None;
         EvCall (CallGetCheckpoint p) None;
         EvCall (CallEvaluate tokenizer METRIC) None;
         EvCall (CallPadTokenId tokenizer) None;
         EvCall (CallDataCollator
                   {| dc_tokenizer := tokenizer; dc_model := checkpoint;
                      dc_padding := true; dc_label_pad_token_id := pad |}) None;
         EvCall (CallFromPretrained checkpoint) None].
Proof.
  intros METRIC train_path test_path source_lang target_lang size w w' r H.
  destruct (setup_inr _ _ C _ _ _ _ _ _ _ _ _ H)
    as [p [train_enc [test_enc [tok [ckpt [ev [pad [dc [m
          [x1 [x2 [x3 [x4 [x5 [x6 [x7 [x8
            [_ [_ [_ [_ [_ [E6 [_ [E8 [R W]]]]]]]]]]]]]]]]]]]]]]]]]].
  exists p, (DsRef (List.length (instances (heap w)))),
         (DsRef (S (List.length (instances (heap w))))),
         tok, ckpt, ev, pad, dc, m.
  split; [exact R|].
  split; [exists x5, x6; exact E6|].
  split; [exists x7, x8; exact E8|].
  apply events_since_app. rewrite W. reflexivity.
Qed.

End SetupMore.

Lemma setup_calls_collaborators_in_source_order_witness :
  let C0 := mock None sample_metrics in
  let run := setup C0 (MetricRef 0) train_path test_path "en" "fr"
                   default_size initial_world in
  exists (p : Preprocessor) (train_dataset test_dataset : ds_ref)
         (tokenizer : T5Tokenizer) (checkpoint : string) (evaluate : Evaluate)
         (pad : option Z) (data_collator : DataCollatorForSeq2Seq)
         (model : T5ForConditionalGeneration),
    (DsRef 0, DsRef 1, TokenizerRef 2, "t5-small", EvaluateRef 4,
     CollatorRef 6, ModelRef 7) =
      (train_dataset, test_dataset, tokenizer, checkpoint, evaluate,
       data_collator, model) /\
    (exists x x' : nat, pad_token_id C0 tokenizer x = (inr pad, x')) /\
    (exists x x' : nat, from_pretrained C0 checkpoint x = (inr model, x')) /\
    events_since initial_world (snd run) =
      [EvCall (CallPreprocessor "t5" default_size "en" "fr") None;
       EvCall (CallPreprocess p train_path test_path) None;
       EvCall (CallGetTokenizer p) None;
       EvCall (CallGetCheckpoint p) None;
       EvCall (CallEvaluate tokenizer (MetricRef 0)) None;
       EvCall (CallPadTokenId tokenizer) None;
       EvCall (CallDataCollator
                 {| dc_tokenizer := tokenizer; dc_model := checkpoint;
                    dc_padding := true; dc_label_pad_token_id := pad |}) None;
       EvCall (CallFromPretrained checkpoint) None].
Proof.
  intros C0 run.
  apply (setup_calls_collaborators_in_source_order nat Z C0 (MetricRef 0)
           train_path test_path "en" "fr" default_size initial_world
           (snd run)).
  vm_compute. reflexivity.
Defined.

Section SetupStore.

Variables X V : Type.
Variable C : Collaborators X V.



(** X7: a [setup] that raises [e] has just made a collaborator call that
    raised [e]: that call is the last thing recorded, every call before
    it returned, nothing but calls was recorded, and the progress tasks
    are as they were.  So [setup] raises nothing of its own and calls
    nothing after a failure. *)
Theorem setup_raises_only_what_a_collaborator_raised :
  forall (METRIC : Metric) (train_path test_path : Path)
         (source_lang target_lang : string) (size : option string)
         (w w' : World X) (e : exn),
    setup C METRIC train_path test_path source_lang target_lang size w =
      (inl e, w') ->
    exists (t0 : list event) (c : call),
      events_since w w' = t0 ++ [EvCall c (Some e)] /\
      Forall (fun ev => is_call ev /\ ~ failed ev) t0 /\
      tasks w' = tasks w.
Proof.
  intros METRIC train_path test_path source_lang target_lang size w w' e H.
  destruct (setup_logged _ _ C METRIC train_path test_path source_lang
              target_lang size w) as [t [T O]].
  destruct (setup_calls_only _ _ C METRIC train_path test_path source_lang
              target_lang size w) as [t' [T' [Q K]]].
  rewrite H in *. simpl in *.
  assert (t' = t) by (apply (app_inv_head (trace w)); congruence). subst t'.
  destruct O as [t0 [c [E F]]]. subst t.
  exists t0, c. split; [apply events_since_app; exact T|].
  split; [|exact K].
  apply Forall_app in Q. destruct Q as [Q _].
  rewrite Forall_forall in *. intros ev Hin. split; [apply Q | apply F]; exact Hin.
Qed.

(** X8: returning or raising, [setup] does nothing that shows but calling
    collaborators: it prints nothing, and it leaves the progress tasks
    alone. *)
Theorem setup_only_calls_collaborators :
  forall (METRIC : Metric) (train_path test_path : Path)
         (source_lang target_lang : string) (size : option string)
         (w : World X),
    Forall is_call
      (events_since w
         (snd (setup C METRIC train_path test_path source_lang target_lang
                     size w))) /\
    ~ In success_message
         (events_since w
            (snd (setup C METRIC train_path test_path source_lang target_lang
                        size w))) /\
    tasks (snd (setup C METRIC train_path test_path source_lang target_lang
                      size w)) = tasks w.
Proof.
  intros METRIC train_path test_path source_lang target_lang size w.
  destruct (setup_calls_only _ _ C METRIC train_path test_path source_lang
              target_lang size w) as [t [T [Q K]]].
  rewrite (events_since_app _ _ _ T).
  split; [exact Q|]. split; [|exact K].
  intro Hin. rewrite Forall_forall in Q.
  destruct (Q _ Hin) as [c [r E]]. discriminate E.
Qed.

End SetupStore.


Lemma setup_raises_only_what_a_collaborator_raised_witness :
  let C0 := mock (Some 7) sample_metrics in
  let w' := snd (setup C0 (MetricRef 0) train_path test_path "en" "fr"
                       default_size initial_world) in
  exists (t0 : list event) (c : call),
    events_since initial_world w' =
      t0 ++ [EvCall c (Some (ExternalError "scripted failure"))] /\
    Forall (fun ev => is_call ev /\ ~ failed ev) t0 /\
    tasks w' = tasks initial_world.
Proof.
  intros C0 w'.
  apply (setup_raises_only_what_a_collaborator_raised nat Z C0 (MetricRef 0)
           train_path test_path "en" "fr" default_size initial_world w').
  vm_compute. reflexivity.
Defined.

(** * Further properties of the driver: every run, finished or not *)

Section LoopOutcomes.

Variables X V : Type.
Variable C : Collaborators X V.

Variable args : Seq2SeqTrainingArguments.
Variables train_dataset test_dataset : ds_ref.
Variable tokenizer : T5Tokenizer.
Variable evaluate : Evaluate.
Variable data_collator : DataCollatorForSeq2Seq.
Variable model : T5ForConditionalGeneration.

Let kwargs : trainer_kwargs :=
  {| tr_model := model;
     tr_args := args;
     tr_train_dataset := train_dataset;
     tr_eval_dataset := test_dataset;
     tr_tokenizer := tokenizer;
     tr_data_collator := data_collator;
     tr_compute_metrics := evaluate |}.

Let body : Z -> SE (World X) unit :=
  epoch_body C args 0 train_dataset test_dataset tokenizer evaluate
             data_collator model.

Lemma passes_app :
  forall t1 t2 : list event,
    training_passes_returned (t1 ++ t2) =
    training_passes_returned t1 + training_passes_returned t2.
Proof.
  induction t1 as [|ev t1 IH]; intro t2; simpl.
  - reflexivity.
  - destruct ev as [[] [?|]| | | | | |]; simpl; now rewrite IH.
Qed.

(** One epoch, whatever its outcome. *)
Lemma epoch_outcome :
  forall (epoch : Z) (w w' : World X) (res : exn + unit)
         (d : string) (tot c0 : Z),
    tasks w = [{| description := d; total := tot; completed := c0 |}] ->
    body epoch w = (res, w') ->
    exists t : list event,
      trace w' = trace w ++ t /\
      heap w' = heap w /\
      tasks w' =
        [{| description := d; total := tot;
            completed := (c0 + Z.of_nat (training_passes_returned t))%Z |}] /\
      training_passes_returned t <= 1 /\
      Forall epoch_event t /\
      match res with
      | inr _ =>
          steps t = epoch_steps /\
          Forall (fun ev => ~ failed ev) t /\
          training_passes_returned t = 1
      | inl e =>
          exists (t0 : list event) (c : call) (rest : list step),
            t = t0 ++ [EvCall c (Some e)] /\
            Forall (fun ev => ~ failed ev) t0 /\
            epoch_steps = steps t ++ rest
      end.
Proof.
  intros epoch w w' res d tot c0 T H.
  unfold body, epoch_body in H. cbv zeta in H.
  unfold bind, invoke in H. fold kwargs in H.
  destruct (Seq2SeqTrainer_init C kwargs (ext w)) as [[e1|trainer] x1].
  { injection H as Hr Hw; subst res w'. cbn [trace heap tasks raised_of].
    exists [EvCall (CallTrainer kwargs) (Some e1)].
    rewrite T, Z.add_0_r.
    repeat split; try (simpl; lia).
    - constructor; [discriminate | constructor].
    - exists [], (CallTrainer kwargs), [TrainPass; Advance; EvaluatePass; Render].
      repeat split. constructor. }
  cbn [ext heap tasks trace raised_of] in H.
  destruct (trainer_train C trainer x1) as [[e2|[]] x2].
  { injection H as Hr Hw; subst res w'. cbn [trace heap tasks raised_of].
    exists [EvCall (CallTrainer kwargs) None; EvCall (CallTrain trainer) (Some e2)].
    rewrite T, Z.add_0_r, <- app_assoc.
    repeat split; try (simpl; lia).
    - repeat (constructor; [discriminate|]). constructor.
    - exists [EvCall (CallTrainer kwargs) None], (CallTrain trainer),
             [Advance; EvaluatePass; Render].
      repeat split. constructor; [apply not_failed_returned | constructor]. }
  unfold progress_update in H. cbn [ext heap tasks trace raised_of] in H.
  rewrite T in H. cbn [nth_error update_nth description total completed] in H.
  cbn [ext heap tasks trace raised_of] in H.
  destruct (trainer_evaluate C trainer x2) as [[e3|metrics] x3].
  { injection H as Hr Hw; subst res w'. cbn [trace heap tasks raised_of].
    exists [EvCall (CallTrainer kwargs) None; EvCall (CallTrain trainer) None;
            EvAdvance 0 1; EvCall (CallTrainerEvaluate trainer) (Some e3)].
    repeat rewrite <- app_assoc.
    repeat split; try (simpl; lia).
    - repeat (constructor; [discriminate|]). constructor.
    - exists [EvCall (CallTrainer kwargs) None; EvCall (CallTrain trainer) None;
              EvAdvance 0 1], (CallTrainerEvaluate trainer), [Render].
      repeat split.
      repeat (constructor; [intros [c' [e' Hf]]; discriminate Hf|]).
      constructor. }
  unfold console_print, log in H.
  injection H as Hr Hw; subst res w'. cbn [trace heap tasks raised_of].
  exists [EvCall (CallTrainer kwargs) None; EvCall (CallTrain trainer) None;
          EvAdvance 0 1; EvCall (CallTrainerEvaluate trainer) None;
          EvConsolePrint
            (RPanel {| panel_body := metrics_table_of C metrics;
                       panel_title := "Evaluation Metrics";
                       expand := false |})].
  repeat rewrite <- app_assoc.
  repeat split; try (simpl; lia).
  - repeat (constructor; [discriminate|]). constructor.
  - repeat (constructor; [intros [c' [e' Hf]]; discriminate Hf|]).
    constructor.
Qed.

(** The loop, whatever its outcome: the task counts the training passes
    that returned, the steps recorded are an initial part of the rounds
    the loop was asked for, and the store is not touched. *)
Lemma loop_outcome :
  forall (xs : list Z) (w w' : World X) (res : exn + unit)
         (d : string) (tot c0 : Z),
    tasks w = [{| description := d; total := tot; completed := c0 |}] ->
    for_each xs body w = (res, w') ->
    exists t : list event,
      trace w' = trace w ++ t /\
      heap w' = heap w /\
      tasks w' =
        [{| description := d; total := tot;
            completed := (c0 + Z.of_nat (training_passes_returned t))%Z |}] /\
      training_passes_returned t <= List.length xs /\
      Forall epoch_event t /\
      (exists rest : list step,
          rounds (List.length xs) epoch_steps = steps t ++ rest) /\
      match res with
      | inr _ => Forall (fun ev => ~ failed ev) t
      | inl e =>
          exists (t0 : list event) (c : call),
            t = t0 ++ [EvCall c (Some e)] /\
            Forall (fun ev => ~ failed ev) t0
      end.
Proof.
  induction xs as [|x xs IH]; intros w w' res d tot c0 T H.
  - simpl in H. unfold ret in H. injection H as Hr Hw; subst res w'.
    exists []. rewrite app_nil_r, T, Z.add_0_r.
    repeat split; try constructor. exists []. reflexivity.
  - simpl in H. unfold bind in H.
    destruct (body x w) as [r1 w1] eqn:E1.
    destruct (epoch_outcome x w w1 r1 d tot c0 T E1)
      as [t1 [Tr1 [Hp1 [Tk1 [P1 [Q1 O1]]]]]].
    destruct r1 as [e|[]].
    + injection H as Hr Hw; subst res w'.
      destruct O1 as [t0 [c [rest [Et [F0 Pre]]]]].
      exists t1. repeat split; try assumption.
      * cbn [List.length]. lia.
      * exists (rest ++ rounds (List.length xs) epoch_steps).
        cbn [List.length rounds]. rewrite Pre. now rewrite <- app_assoc.
      * exists t0, c. split; assumption.
    + destruct O1 as [S1 [F1 N1]].
      destruct (IH w1 w' res d tot _ Tk1 H)
        as [t2 [Tr2 [Hp2 [Tk2 [P2 [Q2 [[rest Pre] O2]]]]]]].
      exists (t1 ++ t2). rewrite passes_app.
      split; [rewrite Tr2, Tr1; now rewrite app_assoc|].
      split; [congruence|].
      split; [rewrite Tk2, Nat2Z.inj_add, Z.add_assoc; reflexivity|].
      split; [cbn [List.length]; lia|].
      split; [apply Forall_app; split; assumption|].
      split.
      * exists rest. cbn [List.length rounds].
        rewrite steps_app, S1, Pre. now rewrite <- app_assoc.
      * destruct res as [e|u].
        -- destruct O2 as [t0 [c [Et F0]]].
           exists (t1 ++ t0), c. split.
           ++ rewrite Et. now rewrite app_assoc.
           ++ apply Forall_app. split; assumption.
        -- apply Forall_app. split; assumption.
Qed.

End LoopOutcomes.

Section DriverOutcomes.

Variables X V : Type.
Variable C : Collaborators X V.

(** The driver after a [setup] that returned, whatever the outcome of
    the loop. *)
Lemma driver_outcome :
  forall (args : Seq2SeqTrainingArguments) (METRIC : Metric)
         (train_path test_path : Path) (source_lang target_lang : string)
         (size : option string) (w w1 w' : World X) (r : SetupResult)
         (res : exn + unit),
    setup C METRIC train_path test_path source_lang target_lang size w =
      (inr r, w1) ->
    train_torch_with C args METRIC train_path test_path source_lang
                     target_lang size w = (res, w') ->
    exists tl : list event,
      trace w' =
        trace w1 ++
        [EvProgressStart;
         EvAddTask "[cyan]Training..." (num_train_epochs args);
         EvPrint newline] ++
        tl ++
        EvProgressStop ::
        match res with
        | inr _ => [success_message]
        | inl _ => []
        end /\
      heap w' = heap w1 /\
      tasks w' =
        [{| description := "[cyan]Training...";
            total := num_train_epochs args;
            completed := Z.of_nat (training_passes_returned tl) |}] /\
      training_passes_returned tl <= Z.to_nat (num_train_epochs args) /\
      Forall epoch_event tl /\
      (exists rest : list step,
          rounds (Z.to_nat (num_train_epochs args)) epoch_steps =
          steps tl ++ rest) /\
      match res with
      | inr _ => Forall (fun ev => ~ failed ev) tl
      | inl e =>
          exists (t0 : list event) (c : call),
            tl = t0 ++ [EvCall c (Some e)] /\
            Forall (fun ev => ~ failed ev) t0
      end.
Proof.
  intros args METRIC train_path test_path source_lang target_lang size
         w w1 w' r res Hs Hrun.
  unfold train_torch_with in Hrun.
  erewrite bind_step in Hrun by exact Hs.
  destruct r as [[[[[[train test] tok] ckpt] ev] dc] m].
  unfold bind, with_Progress, add_task, print, log in Hrun.
  cbn [tasks heap ext trace List.length app] in Hrun.
  assert (L : List.length (range (num_train_epochs args)) =
              Z.to_nat (num_train_epochs args)).
  { unfold range. now rewrite length_map, length_seq. }
  match type of Hrun with
  | context [for_each ?xs ?b ?W] =>
      destruct (for_each xs b W) as [rl w4] eqn:EL;
      destruct (loop_outcome X V C args train test tok ev dc m xs W w4 rl
                  "[cyan]Training..." (num_train_epochs args) 0%Z eq_refl EL)
        as [tl [Tr [Hp [Tk [P [Q [Pre O]]]]]]]
  end.
  rewrite L in *. cbn [trace heap] in Tr, Hp.
  exists tl.
  destruct rl as [e|[]].
  - injection Hrun as Hr Hw. subst res w'. cbn [trace heap tasks].
    rewrite Tr, Hp, Tk. repeat rewrite <- app_assoc.
    repeat split; assumption.
  - unfold console_print, log in Hrun. cbn [trace heap tasks] in Hrun.
    injection Hrun as Hr Hw. subst res w'. cbn [trace heap tasks].
    rewrite Tr, Hp, Tk. repeat rewrite <- app_assoc.
    repeat split; assumption.
Qed.

(** The trace of the driver, whatever its outcome: a run that returns
    has recorded no failed call; a run that raises [e] has recorded
    exactly one, which raised [e], followed at most by the stopping of
    the display, and has not printed the success message. *)
Lemma driver_trace_shape :
  forall (args : Seq2SeqTrainingArguments) (METRIC : Metric)
         (train_path test_path : Path) (source_lang target_lang : string)
         (size : option string) (w w' : World X) (res : exn + unit),
    train_torch_with C args METRIC train_path test_path source_lang
                     target_lang size w = (res, w') ->
    match res with
    | inr _ => Forall (fun ev => ~ failed ev) (events_since w w')
    | inl e =>
        exists (t0 : list event) (c : call) (tail : list event),
          events_since w w' = t0 ++ EvCall c (Some e) :: tail /\
          Forall (fun ev => ~ failed ev) t0 /\
          (tail = [] \/ tail = [EvProgressStop]) /\
          ~ In success_message (events_since w w')
    end.
Proof.
  intros args METRIC train_path test_path source_lang target_lang size
         w w' res Hrun.
  destruct (setup C METRIC train_path test_path source_lang target_lang size w)
    as [rs w1] eqn:Hs.
  destruct (setup_logged _ _ C METRIC train_path test_path source_lang
              target_lang size w) as [ts [Ts Os]].
  destruct (setup_calls_only _ _ C METRIC train_path test_path source_lang
              target_lang size w) as [ts' [Ts' [Qs _]]].
  rewrite Hs in *. simpl in Ts, Os, Ts'.
  assert (ts' = ts) by (apply (app_inv_head (trace w)); congruence). subst ts'.
  assert (NoMsg : ~ In success_message ts).
  { intro Hin. rewrite Forall_forall in Qs.
    destruct (Qs _ Hin) as [c [r E]]. discriminate E. }
  destruct rs as [e'|r].
  - unfold train_torch_with in Hrun.
    rewrite (bind_inl _ _ _ _ _ Hs) in Hrun.
    injection Hrun as Hr Hw. subst res w'.
    destruct Os as [t0 [c [Et F0]]].
    rewrite (events_since_app _ _ _ Ts).
    exists t0, c, []. repeat split; try assumption; auto.
  - destruct (driver_outcome _ _ _ _ _ _ _ _ _ _ _ _ Hs Hrun)
      as [tl [Tr [_ [_ [_ [Q [_ O]]]]]]].
    assert (NoMsgL : ~ In success_message tl).
    { intro Hin. rewrite Forall_forall in Q. apply (Q _ Hin). reflexivity. }
    assert (Ok3 : Forall (fun ev => ~ failed ev)
                    [EvProgressStart;
                     EvAddTask "[cyan]Training..." (num_train_epochs args);
                     EvPrint newline]).
    { repeat (constructor; [intros [c' [e' Hf]]; discriminate Hf|]).
      constructor. }
    destruct res as [e|u].
    + destruct O as [t0 [c [Et F0]]]. subst tl.
      exists (ts ++ [EvProgressStart;
                     EvAddTask "[cyan]Training..." (num_train_epochs args);
                     EvPrint newline] ++ t0), c, [EvProgressStop].
      assert (E : events_since w w' =
                  (ts ++ [EvProgressStart;
                          EvAddTask "[cyan]Training..." (num_train_epochs args);
                          EvPrint newline] ++ t0) ++
                  EvCall c (Some e) :: [EvProgressStop]).
      { apply events_since_app. rewrite Tr, Ts.
        repeat rewrite <- app_assoc. reflexivity. }
      split; [exact E|]. split.
      * apply Forall_app. split; [exact Os|].
        apply Forall_app. split; assumption.
      * split; [right; reflexivity|].
        rewrite E. intro Hin.
        repeat rewrite <- app_assoc in Hin.
        apply in_app_or in Hin. destruct Hin as [Hin|Hin]; [exact (NoMsg Hin)|].
        simpl in Hin.
        repeat (destruct Hin as [Hin|Hin]; [discriminate Hin|]).
        apply NoMsgL. apply in_or_app.
        apply in_app_or in Hin. destruct Hin as [Hin|Hin]; [left; exact Hin|].
        simpl in Hin.
        repeat (destruct Hin as [Hin|Hin]; [discriminate Hin|]).
        destruct Hin.
    + assert (E : events_since w w' =
                  ts ++ [EvProgressStart;
                         EvAddTask "[cyan]Training..." (num_train_epochs args);
                         EvPrint newline] ++ tl ++
                  [EvProgressStop; success_message]).
      { apply events_since_app. rewrite Tr, Ts.
        repeat rewrite <- app_assoc. reflexivity. }
      rewrite E.
      apply Forall_app. split; [exact Os|].
      apply Forall_app. split; [exact Ok3|].
      apply Forall_app. split; [exact O|].
      repeat (constructor; [intros [c' [e' Hf]]; discriminate Hf|]).
      constructor.
Qed.

End DriverOutcomes.

Section DriverMore.

Variables X V : Type.
Variable C : Collaborators X V.

(** X11: the first collaborator call that raises ends the run: whenever
    the trace of a run of the driver holds a call that raised [e], the
    driver raised [e]; and a driver that returned has recorded no failed
    call at all. *)
Theorem driver_stops_at_first_failed_call :
  forall (args : Seq2SeqTrainingArguments) (METRIC : Metric)
         (train_path test_path : Path) (source_lang target_lang : string)
         (size : option string) (w : World X) (c : call) (e : exn),
    In (EvCall c (Some e))
       (events_since w
          (snd (train_torch_with C args METRIC train_path test_path
                  source_lang target_lang size w))) ->
    fst (train_torch_with C args METRIC train_path test_path source_lang
           target_lang size w) = inl e.
Proof.
  intros args METRIC train_path test_path source_lang target_lang size
         w c e Hin.
  destruct (train_torch_with C args METRIC train_path test_path source_lang
              target_lang size w) as [res w'] eqn:H.
  pose proof (driver_trace_shape _ _ C _ _ _ _ _ _ _ _ _ _ H) as Sh.
  simpl in *. destruct res as [e'|u].
  - destruct Sh as [t0 [c' [tail [E [F0 [Tl _]]]]]].
    rewrite E in Hin. apply in_app_or in Hin. destruct Hin as [Hin|Hin].
    + rewrite Forall_forall in F0. exfalso. apply (F0 _ Hin).
      now exists c, e.
    + destruct Hin as [Hin|Hin]; [now inversion Hin|].
      destruct Tl as [Tl|Tl]; subst tail; simpl in Hin.
      * destruct Hin.
      * destruct Hin as [Hin|[]]. discriminate Hin.
  - rewrite Forall_forall in Sh. exfalso. apply (Sh _ Hin). now exists c, e.
Qed.

End DriverMore.

Lemma driver_stops_at_first_failed_call_witness :
  fst (sample_run (Some 12)) = inl (ExternalError "scripted failure").
Proof.
  apply (driver_stops_at_first_failed_call nat Z
           (mock (Some 12) sample_metrics) training_args (MetricRef 0)
           train_path test_path "en" "fr" default_size initial_world
           (CallTrain (TrainerRef 11))).
  vm_compute. do 17 right. left. reflexivity.
Defined.

(** * Further properties of the metrics table and of the module body *)

Section TableShape.

Variables X V : Type.
Variable C : Collaborators X V.

Lemma fold_add_row_keeps_frame :
  forall (kvs : list (string * V)) (t : Table),
    let t' := fold_left
                (fun t '(metric_name, metric_value) =>
                   add_row t [metric_name; str C metric_value]) kvs t in
    title t' = title t /\
    show_header t' = show_header t /\
    header_style t' = header_style t /\
    columns t' = columns t.
Proof.
  induction kvs as [|[k v] kvs IH]; intro t; simpl.
  - repeat split.
  - destruct (IH (add_row t [k; str C v])) as [H1 [H2 [H3 H4]]].
    simpl in *. repeat split; assumption.
Qed.

(** X13: whatever the metrics, the table of an epoch is titled
    [Metrics], shows its header and has the two centred columns
    [Metric] and [Value]; every row has exactly as many cells as there
    are columns; and a mapping without metrics gives a table without
    rows. *)
Theorem metrics_table_is_well_formed :
  forall metrics : dict V,
    title (metrics_table_of C metrics) = "Metrics" /\
    show_header (metrics_table_of C metrics) = true /\
    columns (metrics_table_of C metrics) =
      [{| header := "Metric"; justify := "center" |};
       {| header := "Value"; justify := "center" |}] /\
    Forall (fun row =>
              List.length row =
              List.length (columns (metrics_table_of C metrics)))
           (rows (metrics_table_of C metrics)) /\
    (items metrics = [] -> rows (metrics_table_of C metrics) = []).
Proof.
  intro metrics.
  assert (Cols : columns (metrics_table_of C metrics) =
                 [{| header := "Metric"; justify := "center" |};
                  {| header := "Value"; justify := "center" |}]).
  { unfold metrics_table_of. cbv zeta.
    match goal with
    | |- columns (fold_left _ ?kvs ?t) = _ =>
        destruct (fold_add_row_keeps_frame kvs t) as [_ [_ [_ H]]]
    end.
    rewrite H. reflexivity. }
  split; [|split; [|split; [exact Cols|split]]].
  - unfold metrics_table_of. cbv zeta.
    match goal with
    | |- title (fold_left _ ?kvs ?t) = _ =>
        destruct (fold_add_row_keeps_frame kvs t) as [H _]
    end.
    rewrite H. reflexivity.
  - unfold metrics_table_of. cbv zeta.
    match goal with
    | |- show_header (fold_left _ ?kvs ?t) = _ =>
        destruct (fold_add_row_keeps_frame kvs t) as [_ [H _]]
    end.
    rewrite H. reflexivity.
  - rewrite Cols, metrics_table_rows. apply Forall_forall.
    intros row Hin. apply in_map_iff in Hin.
    destruct Hin as [kv [E _]]. subst row. reflexivity.
  - intro E. rewrite metrics_table_rows, E. reflexivity.
Qed.

(** X14: the metric is loaded whatever the name the module runs under,
    and when loading it raises, the module raises the same exception
    right there: the two logging settings and the failed load are all
    that was recorded, so no preprocessor was built and no training
    started, also under the name [__main__]. *)
Theorem failed_metric_load_aborts_module :
  forall (name : string) (argv : list string) (w : World X) (e : exn) (x1 : X),
    evaluate_load C "sacrebleu" (ext w) = (inl e, x1) ->
    module_body C name argv w =
      (inl e,
       mkWorld (heap w) x1 (tasks w)
               (trace w ++
                [EvCall (CallFilterWarnings "ignore") None;
                 EvCall CallSetVerbosityError None;
                 EvCall (CallEvaluateLoad "sacrebleu") (Some e)])) /\
    trainers_built (events_since w (snd (module_body C name argv w))) = [] /\
    forall (model : string) (size : option string)
           (source_lang target_lang : string) (r : option exn),
      ~ In (EvCall (CallPreprocessor model size source_lang target_lang) r)
           (events_since w (snd (module_body C name argv w))).
Proof.
  intros name argv w e x1 H.
  assert (R : module_body C name argv w =
              (inl e,
               mkWorld (heap w) x1 (tasks w)
                       (trace w ++
                        [EvCall (CallFilterWarnings "ignore") None;
                         EvCall CallSetVerbosityError None;
                         EvCall (CallEvaluateLoad "sacrebleu") (Some e)]))).
  { unfold module_body, bind, invoke, log. cbn [ext heap tasks trace].
    rewrite H. cbn [raised_of]. repeat rewrite <- app_assoc. reflexivity. }
  split; [exact R|].
  rewrite R. cbn [snd].
  erewrite events_since_app by (cbn [trace]; reflexivity).
  split; [reflexivity|].
  intros model size source_lang target_lang r Hin. simpl in Hin.
  repeat (destruct Hin as [Hin|Hin]; [discriminate Hin|]). exact Hin.
Qed.

End TableShape.

Lemma failed_metric_load_aborts_module_witness :
  let C0 := mock (Some 0) sample_metrics in
  let e := ExternalError "scripted failure" in
  module_body C0 "__main__" [] initial_world =
    (inl e,
     mkWorld (heap initial_world) 1 (tasks initial_world)
             (trace initial_world ++
              [EvCall (CallFilterWarnings "ignore") None;
               EvCall CallSetVerbosityError None;
               EvCall (CallEvaluateLoad "sacrebleu") (Some e)])) /\
  trainers_built
    (events_since initial_world
       (snd (module_body C0 "__main__" [] initial_world))) = [] /\
  forall (model : string) (size : option string)
         (source_lang target_lang : string) (r : option exn),
    ~ In (EvCall (CallPreprocessor model size source_lang target_lang) r)
         (events_since initial_world
            (snd (module_body C0 "__main__" [] initial_world))).
Proof.
  intros C0 e.
  apply (failed_metric_load_aborts_module nat Z C0 "__main__" []
           initial_world e 1).
  reflexivity.
Defined.
